(** * Study assistant: the answer sanitizer, the session store and [ask]

    A shallow embedding of [src/app/chatbot.py].

    - Python [str] values are sequences of Unicode code points: [pystr].
    - [re.sub] is modelled by a small backtracking matcher for the subset of
      the regular-expression syntax that [_sanitize_answer] uses; the four
      patterns are written as syntax trees of that subset.
    - [StudyAssistant] is a record holding the session dictionary, the note
      store and the log of completion calls; [ask] runs in a state monad
      whose results are values or raised exceptions. *)

From Stdlib Require Import NArith List String Ascii Lia Bool Arith.
From stdpp Require Import gmap list.
Import ListNotations.

Local Open Scope N_scope.
Local Open Scope nat_scope.
Local Open Scope list_scope.

(** ** Python strings *)

Module Py.

(** A [str] is a sequence of code points. *)
Abbreviation pystr := (list N).

(** An ASCII literal, code point by code point. *)
Definition lit (s : string) : pystr :=
  map N_of_ascii (list_ascii_of_string s).

(** ["\n"] *)
Definition nl : pystr := [10%N].

(** [str.isspace] on one code point: the characters [str.strip()] removes. *)
Definition isspace (c : N) : bool :=
  ((9 <=? c) && (c <=? 13) || (28 <=? c) && (c <=? 32)
   || (c =? 133) || (c =? 160) || (c =? 5760)
   || (8192 <=? c) && (c <=? 8202)
   || (c =? 8232) || (c =? 8233) || (c =? 8239) || (c =? 8287)
   || (c =? 12288))%N.

Fixpoint lstrip (t : pystr) : pystr :=
  match t with
  | [] => []
  | c :: t' => if isspace c then lstrip t' else t
  end.

Definition rstrip (t : pystr) : pystr := rev (lstrip (rev t)).

(** [t.strip()] *)
Definition strip (t : pystr) : pystr := rstrip (lstrip t).

(** [sep.join(parts)] *)
Fixpoint join (sep : pystr) (parts : list pystr) : pystr :=
  match parts with
  | [] => []
  | [p] => p
  | p :: ps => p ++ sep ++ join sep ps
  end.

(** [str(n)] for a non-negative integer, in decimal. *)
Fixpoint digits (fuel : nat) (n : N) (acc : pystr) : pystr :=
  match fuel with
  | O => acc
  | S fuel' =>
      let acc' := (48 + n mod 10)%N :: acc in
      if (n <? 10)%N then acc' else digits fuel' (n / 10)%N acc'
  end.

Definition str_of_nat (n : nat) : pystr :=
  digits (S n) (N.of_nat n) [].

End Py.

Export Py.

(** ** The fragment of [re] used by the sanitizer *)

Module Re.

(** The inline flags [(?i)] and [(?s)]. [re.MULTILINE] is never set by the
    source, so [^] and [$] have their one-line reading throughout. *)
Record flags := { ignorecase : bool; dotall : bool }.

Inductive set_item :=
| SChar (c : N)      (* a character inside [...] *)
| SSpace             (* \s *)
| SNotSpace.         (* \S *)

Inductive atom :=
| Lit (c : N)                  (* a literal character *)
| Dot                          (* .  *)
| InSet (items : list set_item).  (* [...] *)

Inductive regex :=
| Empty
| Atom (a : atom)
| Bol                          (* ^ *)
| Eol                          (* $ *)
| Seq (r1 r2 : regex)
| Alt (r1 r2 : regex)          (* r1|r2, r1 tried first *)
| Opt (r : regex)              (* r?  greedy *)
| LazyStar (a : atom).         (* a*? *)

(** Simple lower-case mapping on the code points that map to an ASCII
    letter occurring in the patterns: A-Z, U+0130 (to i) and U+212A (to k);
    every other code point that matters here is its own image. *)
Definition lower (c : N) : N :=
  (if (65 <=? c) && (c <=? 90) then c + 32
   else if c =? 304 then 105
   else if c =? 8490 then 107
   else c)%N.

Definition is_ascii_letter (c : N) : bool :=
  ((65 <=? c) && (c <=? 90) || (97 <=? c) && (c <=? 122))%N.

(** The engine's extra case equivalences for a lower-case pattern letter:
    i with U+0131 and s with U+017F. *)
Definition fixes (lo : N) : list N :=
  (if lo =? 105 then [305] else if lo =? 115 then [383] else [])%N.

(** Does the pattern literal [p] accept the text character [c]? Uncased
    literals compare exactly; cased ones compare the lowered text character
    with the lowered literal and its equivalents. *)
Definition lit_match (f : flags) (p c : N) : bool :=
  if ignorecase f && is_ascii_letter p then
    let lo := lower p in
    existsb (N.eqb (lower c)) (lo :: fixes lo)
  else (c =? p)%N.

Definition item_match (it : set_item) (c : N) : bool :=
  match it with
  | SChar x => (c =? x)%N
  | SSpace => isspace c
  | SNotSpace => negb (isspace c)
  end.

Definition atom_match (f : flags) (a : atom) (c : N) : bool :=
  match a with
  | Lit p => lit_match f p c
  | Dot => dotall f || negb (c =? 10)%N
  | InSet items => existsb (fun it => item_match it c) items
  end.

(** A matcher state: the index reached and the text still ahead. *)
Abbreviation mstate := (nat * list N)%type.

(** The states [a*?] can stop in, shortest first. *)
Fixpoint lazy_star (f : flags) (a : atom) (pos : nat) (rest : pystr)
  : list mstate :=
  (pos, rest) ::
  match rest with
  | c :: rest' =>
      if atom_match f a c then lazy_star f a (S pos) rest' else []
  | [] => []
  end.

(** All the ways [r] can match from a state, in the order in which the
    backtracking engine tries them. [^] holds at index 0 only; [$] holds at
    the end of the text and just before a newline that ends the text. *)
Fixpoint ms (f : flags) (r : regex) (s : mstate) : list mstate :=
  match r with
  | Empty => [s]
  | Atom a =>
      match snd s with
      | c :: rest' => if atom_match f a c then [(S (fst s), rest')] else []
      | [] => []
      end
  | Bol => if Nat.eqb (fst s) 0 then [s] else []
  | Eol =>
      match snd s with
      | [] => [s]
      | [c] => if (c =? 10)%N then [s] else []
      | _ :: _ :: _ => []
      end
  | Seq r1 r2 => flat_map (ms f r2) (ms f r1 s)
  | Alt r1 r2 => ms f r1 s ++ ms f r2 s
  | Opt r1 => ms f r1 s ++ [s]
  | LazyStar a => lazy_star f a (fst s) (snd s)
  end.

(** The match the engine reports at a state when an empty match is not
    acceptable there: the first non-empty one in backtracking order. With
    an empty replacement, removing it is all that a substitution does at
    that index. *)
Definition match_at (f : flags) (r : regex) (s : mstate) : option mstate :=
  List.find (fun s' => Nat.ltb (fst s) (fst s')) (ms f r s).

(** [re.sub(r, '', text)] from index [pos], with [skip] characters of the
    current match still to drop. *)
Fixpoint sub_from (f : flags) (r : regex) (skip pos : nat) (rest : pystr)
  : pystr :=
  match rest with
  | [] => []
  | c :: rest' =>
      match skip with
      | S k => sub_from f r k (S pos) rest'
      | O =>
          match match_at f r (pos, rest) with
          | Some (pos', _) => sub_from f r (pos' - pos - 1) (S pos) rest'
          | None => c :: sub_from f r 0 (S pos) rest'
          end
      end
  end.

Definition sub (f : flags) (r : regex) (text : pystr) : pystr :=
  sub_from f r 0 0 text.

(** A run of literal characters. *)
Definition lits (ps : pystr) : regex :=
  fold_right (fun c r => Seq (Atom (Lit c)) r) Empty ps.

Definition str (s : string) : regex := lits (lit s).

(** [re.search(r, text)]: is there a non-empty match anywhere? *)
Fixpoint search_from (f : flags) (r : regex) (pos : nat) (rest : pystr)
  : bool :=
  match match_at f r (pos, rest) with
  | Some _ => true
  | None =>
      match rest with
      | [] => false
      | _ :: rest' => search_from f r (S pos) rest'
      end
  end.

Definition search (f : flags) (r : regex) (text : pystr) : bool :=
  search_from f r 0 text.

End Re.

(** ** [StudyAssistant._sanitize_answer] *)

Module Sanitizer.
Import Re.

Definition flags_i : flags :=
  {| ignorecase := true; dotall := false |}.
Definition flags_is : flags :=
  {| ignorecase := true; dotall := true |}.

(** [.*?(\n|$)] *)
Definition to_eol : regex :=
  Seq (LazyStar Dot) (Alt (Atom (Lit 10%N)) Eol).

(** [(?i)^thoughts?:.*?(\n|$)] *)
Definition pat_thoughts : regex :=
  Seq Bol (Seq (str "thought")
     (Seq (Opt (Atom (Lit 115%N))) (Seq (Atom (Lit 58%N)) to_eol))).

(** [(?i)^reasoning:.*?(\n|$)] *)
Definition pat_reasoning : regex :=
  Seq Bol (Seq (str "reasoning") (Seq (Atom (Lit 58%N)) to_eol)).

(** [(?i)^analysis:.*?(\n|$)] *)
Definition pat_analysis : regex :=
  Seq Bol (Seq (str "analysis") (Seq (Atom (Lit 58%N)) to_eol)).

(** [[- ]?] *)
Definition opt_sep : regex := Opt (Atom (InSet [SChar 45%N; SChar 32%N])).

(** [(?:thought|chain[- ]?of[- ]?thought|analysis)] *)
Definition fence_label : regex :=
  Alt (str "thought")
    (Alt (Seq (str "chain")
            (Seq opt_sep (Seq (str "of") (Seq opt_sep (str "thought")))))
         (str "analysis")).

(** [[\s\S]*?```] *)
Definition closing : regex :=
  Seq (LazyStar (InSet [SSpace; SNotSpace])) (str "```").

(** [(?is)```(?:thought|chain[- ]?of[- ]?thought|analysis)[\s\S]*?```] *)
Definition pat_fence : regex :=
  Seq (str "```") (Seq fence_label closing).

Definition patterns : list (flags * regex) :=
  [ (flags_i, pat_thoughts); (flags_i, pat_reasoning);
    (flags_i, pat_analysis); (flags_is, pat_fence) ].

(** One turn of the loop: [cleaned = re.sub(pat, '', cleaned).strip()]. *)
Definition step (cleaned : pystr) (pat : flags * regex) : pystr :=
  strip (sub (fst pat) (snd pat) cleaned).

Definition _sanitize_answer (text : pystr) : pystr :=
  fold_left step patterns text.

End Sanitizer.

Export Sanitizer.

(** ** What the four patterns match *)

Module Markers.
Import Re.

(** The text left after the literal run [ps], read under [f], at the start
    of [t]; [None] when [t] does not start with it. *)
Fixpoint lits_match (f : flags) (ps t : pystr) : option pystr :=
  match ps with
  | [] => Some t
  | p :: ps' =>
      match t with
      | c :: t' => if lit_match f p c then lits_match f ps' t' else None
      | [] => None
      end
  end.

(** [t] starts with [s], letters compared without case. *)
Definition ci_starts (s : string) (t : pystr) : option pystr :=
  lits_match flags_i (lit s) t.

(** The text after the first newline; empty when there is none. *)
Fixpoint after_line (t : pystr) : pystr :=
  match t with
  | [] => []
  | c :: t' => if (c =? 10)%N then t' else after_line t'
  end.

(** What follows a leading ["Thoughts:"] or ["Thought:"]. *)
Definition thoughts_marker (t : pystr) : option pystr :=
  match ci_starts "thoughts:" t with
  | Some r => Some r
  | None => ci_starts "thought:" t
  end.

Definition reasoning_marker (t : pystr) : option pystr :=
  ci_starts "reasoning:" t.

Definition analysis_marker (t : pystr) : option pystr :=
  ci_starts "analysis:" t.

(** [t] begins with one of the three line markers. *)
Definition line_marker (t : pystr) : bool :=
  bool_decide (is_Some (thoughts_marker t))
  || bool_decide (is_Some (reasoning_marker t))
  || bool_decide (is_Some (analysis_marker t)).

(** An optional ["-"] or [" "]. *)
Definition skip_sep (t : pystr) : pystr :=
  match t with
  | c :: t' => if (c =? 45)%N || (c =? 32)%N then t' else t
  | [] => []
  end.

(** What follows a fence label at the start of [t]. *)
Definition label_rest (t : pystr) : option pystr :=
  match ci_starts "thought" t with
  | Some r => Some r
  | None =>
      match ci_starts "chain" t with
      | Some r1 =>
          match ci_starts "of" (skip_sep r1) with
          | Some r2 => ci_starts "thought" (skip_sep r2)
          | None => None
          end
      | None => ci_starts "analysis" t
      end
  end.

(** What follows three backticks and a label at the start of [t]. *)
Definition fence_open (t : pystr) : option pystr :=
  match ci_starts "```" t with
  | Some r => label_rest r
  | None => None
  end.

(** What follows the first three backticks found in [t]. *)
Fixpoint after_fence (t : pystr) : option pystr :=
  match ci_starts "```" t with
  | Some r => Some r
  | None =>
      match t with
      | [] => None
      | _ :: t' => after_fence t'
      end
  end.

(** What follows a labelled, closed fenced block at the start of [t]. *)
Definition fence_block (t : pystr) : option pystr :=
  match fence_open t with
  | Some r => after_fence r
  | None => None
  end.

(** Some suffix of [t] satisfies [P]. *)
Fixpoint anywhere (P : pystr -> bool) (t : pystr) : bool :=
  P t || match t with
         | [] => false
         | _ :: t' => anywhere P t'
         end.

(** [t] holds an opening labelled fence somewhere. *)
Definition has_fence_open (t : pystr) : bool :=
  anywhere (fun u => bool_decide (is_Some (fence_open u))) t.

(** [t] holds one of the markers somewhere: a line marker word with its
    colon, or an opening labelled fence. *)
Definition has_marker (t : pystr) : bool :=
  anywhere (fun u => line_marker u || bool_decide (is_Some (fence_open u))) t.

(** Some line of [t] begins with one of the three line markers. *)
Definition has_marker_line (t : pystr) : bool :=
  line_marker t
  || anywhere (fun u => match u with
                        | c :: u' => (c =? 10)%N && line_marker u'
                        | [] => false
                        end) t.

(** The pattern [p] matches somewhere in [y]. *)
Definition finds (y : pystr) (p : flags * regex) : bool :=
  search (fst p) (snd p) y.

(** Some pattern of the sanitizer still matches in [y]. *)
Definition leftover (y : pystr) : bool := existsb (finds y) patterns.

End Markers.

Export Markers.

(** ** [StudyAssistant]: sessions, notes and [ask] *)

Module Assistant.

(** Exceptions, by the classes that the handler in [ask] tells apart. A
    subclass counts as its base: a parser or validation error is a
    [ValueError]. *)
Inductive exn :=
| BadRequestError             (* the provider rejected the request *)
| ValueError                  (* malformed or invalid structured output *)
| KeyError
| OtherError (cls : pystr).   (* any other class: connection, rate limit,
                                 storage *)

Inductive result (A : Type) :=
| Ok (a : A)
| Raise (e : exn).
Arguments Ok {A} a.
Arguments Raise {A} e.

(** [class StudyAssistantResponse(BaseModel)] *)
Record StudyAssistantResponse := {
  answer : pystr;
  key_points : list pystr;
  suggested_questions : list pystr;
  references : list pystr
}.

(** The fields a completion supplies, before validation: a field of the
    schema is there or is missing. *)
Record fields := {
  f_answer : option pystr;
  f_key_points : option (list pystr);
  f_suggested_questions : option (list pystr);
  f_references : option (list pystr)
}.

(** Building the model from the supplied fields: [answer] is required, the
    three lists have [default_factory=list]. A validation error is a
    [ValueError]. *)
Definition model_validate (f : fields) : result StudyAssistantResponse :=
  match f_answer f with
  | None => Raise ValueError
  | Some a =>
      Ok {| answer := a;
            key_points := default [] (f_key_points f);
            suggested_questions := default [] (f_suggested_questions f);
            references := default [] (f_references f) |}
  end.

Inductive BaseMessage :=
| SystemMessage (content : pystr)
| HumanMessage (content : pystr)
| AIMessage (content : pystr).

(** A stored note as the retriever returns it; [metadata] is [None] when it
    is not a dict. *)
Record Document := {
  page_content : pystr;
  metadata : option (gmap pystr pystr)
}.

(** The two structured-output methods of [with_structured_output]. *)
Inductive method := json_mode | json_schema.

(** The capabilities the assistant is built on.
    - [retriever_invoke vs query k] is [self._retriever.invoke(query)] with
      [search_kwargs={"k": k}] on the store [vs].
    - [add_texts vs texts metadatas] is [self._vectorstore.add_texts]: the
      store with the texts added, or an exception that leaves the store as
      it was.
    - [complete calls m prompt] is one invocation of the chat model under
      the structured-output method [m], made after the invocations
      [calls], with the reply parsed: the fields it supplies, or the
      exception of the provider client or of the output parser. What the
      provider client sends over the wire within one invocation, its own
      re-sends included, is inside [complete]. *)
Class Backend := {
  VectorStore : Type;
  retriever_invoke : VectorStore -> pystr -> nat -> result (list Document);
  add_texts : VectorStore -> list pystr -> option (list (gmap pystr pystr))
              -> result VectorStore;
  complete : list (method * list BaseMessage) -> method -> list BaseMessage
             -> result fields
}.

Section WithBackend.
Context {B : Backend}.

(** The state of a [StudyAssistant] object. [llm_calls] is not a field of
    the class: it records every invocation of a structured runnable, one
    per strategy attempt and in order. It does not count what the provider
    client sends within an invocation. *)
Record StudyAssistant := {
  _message_store : gmap pystr (list BaseMessage);
  _vectorstore : VectorStore;
  llm_calls : list (method * list BaseMessage)
}.

Definition set_message_store (ms : gmap pystr (list BaseMessage))
  (self : StudyAssistant) : StudyAssistant :=
  {| _message_store := ms;
     _vectorstore := _vectorstore self;
     llm_calls := llm_calls self |}.

Definition set_vectorstore (vs : VectorStore) (self : StudyAssistant)
  : StudyAssistant :=
  {| _message_store := _message_store self;
     _vectorstore := vs;
     llm_calls := llm_calls self |}.

Definition log_call (c : method * list BaseMessage) (self : StudyAssistant)
  : StudyAssistant :=
  {| _message_store := _message_store self;
     _vectorstore := _vectorstore self;
     llm_calls := llm_calls self ++ [c] |}.

(** Methods: state in, a value or a raised exception and the state out. What
    a method did before it raised stays done. *)
Definition M (A : Type) : Type := StudyAssistant -> result A * StudyAssistant.

Definition ret {A} (a : A) : M A := fun self => (Ok a, self).

Definition raise {A} (e : exn) : M A := fun self => (Raise e, self).

Definition bind {A C} (m : M A) (k : A -> M C) : M C :=
  fun self =>
    match m self with
    | (Ok a, self') => k a self'
    | (Raise e, self') => (Raise e, self')
    end.

(** [try: body  except (classes): handler] *)
Definition try_except {A} (body : M A) (handles : exn -> bool)
  (handler : M A) : M A :=
  fun self =>
    match body self with
    | (Ok a, self') => (Ok a, self')
    | (Raise e, self') => if handles e then handler self' else (Raise e, self')
    end.

Notation "'let*' x ':=' c1 'in' c2" := (bind c1 (fun x => c2))
  (at level 10, x name, c1 at level 100, c2 at level 200).
Notation "'run' c1 'then' c2" := (bind c1 (fun _ => c2))
  (at level 10, c1 at level 100, c2 at level 200).

(** The system text of [self._prompt], with [{style}] and [{notes}] filled
    in. *)
Definition system_text (style notes : pystr) : pystr :=
  lit "You are a kind, rigorous study assistant. Be helpfull, cite facts, and help users learn. explain the answer in a way that is easy to understand and follow."
  ++ nl ++
  lit "Use prior study notes when relevant. If you do not know, say so."
  ++ nl ++
  lit "Never reveal chain-of-thought, analysis notes, hidden reasoning, or step-by-step traces."
  ++ nl ++
  lit "Only provide final answers according to the style and brief bullet points."
  ++ nl ++
  lit "always Make sure to add Follow-up questions on the topic."
  ++ nl ++
  lit "Adjust verbosity based on the user's chosen style: " ++ style ++ lit "."
  ++ nl ++
  lit "- If style is 'short': keep answers to 2-4 sentences and at most 3 key points."
  ++ nl ++
  lit "- If style is 'detailed': provide thorough explanations, examples, and up to 7 key points."
  ++ nl ++ nl ++
  lit "Prior notes (may be empty):" ++ nl ++ notes.

(** The human text of [self._prompt], with [{input}] filled in. *)
Definition human_text (input : pystr) : pystr :=
  lit "Follow the JSON schema strictly. Do not include extra text before or after the JSON."
  ++ nl ++
  lit "Respond to the user's message and return a JSON object that matches the schema."
  ++ nl ++
  lit "User message: " ++ input.

(** The variables of the prompt. *)
Record prompt_input := {
  pi_input : pystr;
  pi_notes : pystr;
  pi_style : pystr;
  pi_chat_history : list BaseMessage
}.

(** [self._prompt]: system text, the history placeholder, human text. *)
Definition _prompt (v : prompt_input) : list BaseMessage :=
  SystemMessage (system_text (pi_style v) (pi_notes v))
  :: pi_chat_history v ++ [HumanMessage (human_text (pi_input v))].

(** What the chains return: [{"ai_message": ..., "result": ...}]. *)
Record chain_output := {
  ai_message : BaseMessage;
  chain_result : StudyAssistantResponse
}.

Definition to_history_and_result (resp : StudyAssistantResponse)
  : chain_output :=
  {| ai_message := AIMessage (answer resp); chain_result := resp |}.

(** What one invocation of a structured runnable gives, after the
    invocations [calls]: the completion validated against the schema, or
    the error of either. *)
Definition structured_result (calls : list (method * list BaseMessage))
  (m : method) (prompt : list BaseMessage) : result StudyAssistantResponse :=
  match complete calls m prompt with
  | Ok f => model_validate f
  | Raise e => Raise e
  end.

(** [self._llm.with_structured_output(StudyAssistantResponse, method=m)]:
    one invocation of the chat model, then validation against the
    schema. *)
Definition structured_llm (m : method) (prompt : list BaseMessage)
  : M StudyAssistantResponse :=
  fun self =>
    (structured_result (llm_calls self) m prompt, log_call (m, prompt) self).

(** [self._chain_json] and [self._chain_schema]:
    [self._prompt | structured | RunnableLambda(to_history_and_result)]. *)
Definition _chain (m : method) (v : prompt_input) : M chain_output :=
  let* resp := structured_llm m (_prompt v) in
  ret (to_history_and_result resp).

(** [_get_or_create_history]: the messages of the session's history, which
    is created empty when the session is new. *)
Definition _get_or_create_history (session_id : pystr)
  : M (list BaseMessage) :=
  fun self =>
    match _message_store self !! session_id with
    | Some messages => (Ok messages, self)
    | None =>
        (Ok [], set_message_store (<[session_id := []]> (_message_store self)) self)
    end.

(** [history.add_messages(msgs)] on the history of [session_id]. *)
Definition add_messages (session_id : pystr) (msgs : list BaseMessage)
  : M unit :=
  fun self =>
    (Ok tt,
     set_message_store
       (alter (fun messages => messages ++ msgs) session_id (_message_store self))
       self).

(** [RunnableWithMessageHistory(chain, get_session_history=...,
    input_messages_key="input", history_messages_key="chat_history",
    output_messages_key="ai_message").invoke(...)]: the session's messages
    go into the prompt as [chat_history]; when the chain returns, the input
    as a human message and the output message are appended to the history;
    when the chain raises, nothing is appended. *)
Definition _with_history (m : method) (input notes style session_id : pystr)
  : M chain_output :=
  let* messages := _get_or_create_history session_id in
  let* out := _chain m {| pi_input := input; pi_notes := notes;
                          pi_style := style; pi_chat_history := messages |} in
  run add_messages session_id [HumanMessage input; ai_message out] then
  ret out.

(** Truth value of an optional string: [None] and the empty string are
    false. *)
Definition truthy (o : option pystr) : bool :=
  match o with
  | Some (_ :: _) => true
  | _ => false
  end.

Definition doc_source (d : Document) : option pystr :=
  match metadata d with
  | Some md => md !! lit "source"
  | None => None
  end.

(** One entry of [parts] in [_retrieve_notes]. *)
Definition note_part (idx : nat) (d : Document) : pystr :=
  let source := doc_source d in
  let header :=
    lit "[Note " ++ str_of_nat idx ++ lit "]"
    ++ (if truthy source then lit " source=" ++ default [] source else []) in
  header ++ nl ++ page_content d.

(** [enumerate(docs, start=idx)] mapped to the parts. *)
Fixpoint note_parts (idx : nat) (docs : list Document) : list pystr :=
  match docs with
  | [] => []
  | d :: docs' => note_part idx d :: note_parts (S idx) docs'
  end.

(** The notes text built from the retrieved documents. *)
Definition notes_text (docs : list Document) : pystr :=
  match docs with
  | [] => []
  | _ => join (nl ++ nl) (note_parts 1 docs)
  end.

Definition _retrieve_notes (query : pystr) : M pystr :=
  fun self =>
    match retriever_invoke (_vectorstore self) query 4 with
    | Raise e => (Raise e, self)
    | Ok docs => (Ok (notes_text docs), self)
    end.

(** [{"source": source} if source else None], then
    [[metadata] if metadata else None]. *)
Definition note_metadatas (source : option pystr)
  : option (list (gmap pystr pystr)) :=
  if truthy source
  then Some [ {[ lit "source" := default [] source ]} ]
  else None.

Definition _save_note (text : pystr) (source : option pystr) : M unit :=
  fun self =>
    match add_texts (_vectorstore self) [text] (note_metadatas source) with
    | Raise e => (Raise e, self)
    | Ok vs => (Ok tt, set_vectorstore vs self)
    end.

(** [except (BadRequestError, ValueError, KeyError)] *)
Definition handled (e : exn) : bool :=
  match e with
  | BadRequestError | ValueError | KeyError => true
  | OtherError _ => false
  end.

Definition styles : gset pystr := {[ lit "short"; lit "detailed" ]}.

Definition normalize_style (style : pystr) : pystr :=
  if bool_decide (style ∈ styles) then style else lit "short".

(** The text of the note that [ask] saves. *)
Definition note_text (message : pystr) (r : StudyAssistantResponse) : pystr :=
  lit "Question: " ++ message ++ nl ++
  lit "Answer: " ++ answer r ++ nl ++
  lit "Key points: "
  ++ (match key_points r with
      | [] => lit "None"
      | _ => join (lit ", ") (key_points r)
      end) ++ nl ++
  lit "Follow-ups: "
  ++ (match suggested_questions r with
      | [] => lit "None"
      | _ => join (lit ", ") (suggested_questions r)
      end).

Definition set_answer (a : pystr) (r : StudyAssistantResponse)
  : StudyAssistantResponse :=
  {| answer := a;
     key_points := key_points r;
     suggested_questions := suggested_questions r;
     references := references r |}.

Definition ask (message session_id style : pystr) : M StudyAssistantResponse :=
  let* notes := _retrieve_notes message in
  let normalized_style := normalize_style style in
  let* out :=
    try_except
      (_with_history json_mode message notes normalized_style session_id)
      handled
      (_with_history json_schema message notes normalized_style session_id) in
  let result := chain_result out in
  let result := set_answer (_sanitize_answer (answer result)) result in
  run _save_note (note_text message result)
        (Some (lit "assistant_session_memory")) then
  ret result.

Definition reset_session (session_id : pystr) : M unit :=
  fun self =>
    (Ok tt,
     if bool_decide (is_Some (_message_store self !! session_id))
     then set_message_store (delete session_id (_message_store self)) self
     else self).

(** The messages logged for a session; none when the session is absent. *)
Definition history (self : StudyAssistant) (session_id : pystr)
  : list BaseMessage :=
  default [] (_message_store self !! session_id).

End WithBackend.

Arguments StudyAssistant : clear implicits.
Arguments M : clear implicits.

(** The prompt of an [ask] call, from the state the call starts in and the
    notes it retrieved. *)
Definition ask_prompt {B : Backend} (self : StudyAssistant B)
  (message session_id style notes : pystr) : list BaseMessage :=
  _prompt {| pi_input := message; pi_notes := notes;
             pi_style := normalize_style style;
             pi_chat_history := history self session_id |}.

(** The state once [_get_or_create_history] has run for a session. *)
Definition opened {B : Backend} (self : StudyAssistant B) (session_id : pystr)
  : StudyAssistant B :=
  set_message_store
    (<[session_id := history self session_id]> (_message_store self)) self.

(** The state after an exchange went through a history-wrapped chain: the
    invocation is logged and [msgs] are appended to the session's
    messages. *)
Definition recorded {B : Backend} (self : StudyAssistant B)
  (session_id : pystr) (m : method) (prompt msgs : list BaseMessage)
  : StudyAssistant B :=
  set_message_store
    (<[session_id := history self session_id ++ msgs]> (_message_store self))
    (log_call (m, prompt) self).

(** The source tag of the notes that [ask] writes. *)
Definition memory_source : option pystr :=
  Some (lit "assistant_session_memory").

(** The end of [ask] once a completion [resp] has come back: the answer is
    sanitized, the note is written to the store [vs], and the response is
    returned from state [self']. *)
Definition finish {B : Backend} (vs : VectorStore) (message : pystr)
  (resp : StudyAssistantResponse) (self' : StudyAssistant B)
  : result StudyAssistantResponse * StudyAssistant B :=
  let r := set_answer (_sanitize_answer (answer resp)) resp in
  match add_texts vs [note_text message r] (note_metadatas memory_source) with
  | Raise e => (Raise e, self')
  | Ok vs' => (Ok r, set_vectorstore vs' self')
  end.

(** The two messages an exchange adds to a session. *)
Definition exchange (message : pystr) (resp : StudyAssistantResponse)
  : list BaseMessage :=
  [HumanMessage message; AIMessage (answer resp)].

(** [except (BadRequestError, ValueError, KeyError)], class by class. The
    specification calls these shape rejection: ProviderRejected is
    [BadRequestError]; MalformedOutput is [ValueError], parser and
    validation errors included, and [KeyError]. Every other class, a
    provider that cannot be reached among them, is not one. *)
Definition shape_rejection (e : exn) : bool :=
  match e with
  | BadRequestError => true
  | ValueError => true
  | KeyError => true
  | OtherError _ => false
  end.

(** The completion step of [ask], lines 140-148, as a function of the
    assistant before the call: the [json_mode] invocation, and after a
    [BadRequestError], [ValueError] or [KeyError] of it the [json_schema]
    invocation with the same prompt. *)
Definition completed {B : Backend} (self : StudyAssistant B)
  (message session_id style : pystr) (docs : list Document)
  : result StudyAssistantResponse :=
  let prompt := ask_prompt self message session_id style (notes_text docs) in
  match structured_result (llm_calls self) json_mode prompt with
  | Ok resp => Ok resp
  | Raise e =>
      if shape_rejection e
      then structured_result (llm_calls self ++ [(json_mode, prompt)])
             json_schema prompt
      else Raise e
  end.

End Assistant.

(** ** The provider client below the structured runnables *)

Module GroqClient.
Import Assistant.

(** [ChatGroq(model=..., temperature=0.2, groq_api_key=...)]: the source
    passes no [max_retries], so the client keeps the retry setting of its
    library. The setting, the errors it re-sends on, and what one send
    gives are the parameters here: [post calls n m prompt] is the outcome
    of send number [n] of the invocation made after the invocations
    [calls]. *)
Record client := {
  max_retries : nat;
  should_retry : exn -> bool;
  post : list (method * list BaseMessage) -> nat -> method
         -> list BaseMessage -> result fields
}.

(** One invocation through the client: send, and send again while the
    error is one the client retries and retries are left. It gives the
    outcome and the number of sends. *)
Fixpoint send (c : client) (calls : list (method * list BaseMessage))
  (m : method) (prompt : list BaseMessage) (retries_left n : nat)
  : result fields * nat :=
  match post c calls n m prompt with
  | Ok f => (Ok f, S n)
  | Raise e =>
      match retries_left with
      | S k =>
          if should_retry c e then send c calls m prompt k (S n)
          else (Raise e, S n)
      | O => (Raise e, S n)
      end
  end.

Definition client_complete (c : client)
  (calls : list (method * list BaseMessage)) (m : method)
  (prompt : list BaseMessage) : result fields :=
  fst (send c calls m prompt (max_retries c) 0).

(** The number of sends of one invocation. *)
Definition posts (c : client) (calls : list (method * list BaseMessage))
  (m : method) (prompt : list BaseMessage) : nat :=
  snd (send c calls m prompt (max_retries c) 0).

End GroqClient.

(** ** Concrete backends, to run [ask] on *)

Module Scenario.
Import Assistant.

(** A note store that keeps its notes in a list, newest first, and refuses
    to write when it is read-only. *)
Record toy_store := {
  writable : bool;
  stored : list Document
}.

Definition toy_add (vs : toy_store) (texts : list pystr)
  (metadatas : option (list (gmap pystr pystr))) : result toy_store :=
  if writable vs then
    Ok {| writable := true;
          stored := map (fun text =>
                           {| page_content := text;
                              metadata := match metadatas with
                                          | Some (md :: _) => Some md
                                          | _ => None
                                          end |}) texts
                    ++ stored vs |}
  else Raise (OtherError (lit "StorageError")).

(** A backend whose chat model answers by [reply], whatever the prompt. *)
Definition toy_backend (reply : method -> result fields) : Backend :=
  {| VectorStore := toy_store;
     retriever_invoke := fun vs _ k => Ok (take k (stored vs));
     add_texts := toy_add;
     complete := fun _ m _ => reply m |}.

Definition answer_only (a : pystr) : fields :=
  {| f_answer := Some a; f_key_points := None;
     f_suggested_questions := None; f_references := None |}.

Definition fresh (B : Backend) (vs : @VectorStore B) : StudyAssistant B :=
  {| _message_store := ∅; _vectorstore := vs; llm_calls := [] |}.

Definition empty_store (w : bool) : toy_store :=
  {| writable := w; stored := [] |}.

(** The chat model leaks a reasoning line before its answer. *)
Definition leaky : Backend :=
  toy_backend (fun _ => Ok (answer_only
    (lit "Reasoning: the sky is blue" ++ nl ++ lit "Final answer here"))).

(** The chat model returns reasoning only. *)
Definition only_thoughts : Backend :=
  toy_backend (fun _ => Ok (answer_only (lit "Thoughts: let me think"))).

(** The chat model returns an empty answer. *)
Definition silent : Backend :=
  toy_backend (fun _ => Ok (answer_only [])).

(** The provider rejects [json_mode] requests and serves [json_schema]. *)
Definition rejecting : Backend :=
  toy_backend (fun m =>
    match m with
    | json_mode => Raise BadRequestError
    | json_schema => Ok (answer_only (lit "A derivative is a rate of change."))
    end).

(** The provider cannot be reached. *)
Definition unreachable : Backend :=
  toy_backend (fun _ => Raise (OtherError (lit "APIConnectionError"))).

Definition question : pystr := lit "What is a derivative?".

(** The response the caller gets when the chat model is [leaky]. *)
Definition final_answer : StudyAssistantResponse :=
  {| answer := lit "Final answer here"; key_points := [];
     suggested_questions := []; references := [] |}.

Definition s1 : pystr := lit "s1".
Definition s2 : pystr := lit "s2".

(** An assistant that has talked in two sessions already. *)
Definition two_sessions (B : Backend) (vs : @VectorStore B) : StudyAssistant B :=
  {| _message_store :=
       <[ s1 := [HumanMessage (lit "What is a limit?");
                 AIMessage (lit "The value a function approaches.")] ]>
       (<[ s2 := [HumanMessage (lit "Define entropy.");
                  AIMessage (lit "A measure of disorder.")] ]> ∅);
     _vectorstore := vs;
     llm_calls := [] |}.

End Scenario.

(** ** [src/app/config.py] *)

Module Config.
Import Assistant.

(** [@dataclass class Settings] *)
Record Settings := {
  groq_api_key : option pystr;
  hf_token : option pystr
}.

(** [get_settings()], from the process environment as it stands after
    [load_dotenv()]. *)
Definition get_settings (environ : gmap pystr pystr) : Settings :=
  {| groq_api_key := environ !! lit "GROQ_API_KEY";
     hf_token := environ !! lit "HUGGINGFACEHUB_API_TOKEN" |}.

End Config.

(** ** [src/main.py]: the console front end *)

Module Console.
Import Assistant Config.

(** What [console.print] is given. *)
Inductive printed :=
| Text (markup : pystr)
| Panel (title : pystr) (rows : list pystr).

(** ["\n".join([f"- {x}" for x in xs])] *)
Definition bullets (xs : list pystr) : pystr :=
  join nl (map (fun x => lit "- " ++ x) xs).

(** One optional row of the table: added when the list is not empty. *)
Definition section_row (heading : string) (xs : list pystr) : list pystr :=
  match xs with
  | [] => []
  | _ => [lit heading ++ nl ++ bullets xs]
  end.

(** The rows that [print_structured] adds to its table. *)
Definition table_rows (response : StudyAssistantResponse) : list pystr :=
  [lit "[bold]Answer[/bold]" ++ nl ++ answer response]
  ++ section_row "[bold]Key Points[/bold]" (key_points response)
  ++ section_row "[bold]Suggested Questions[/bold]"
       (suggested_questions response)
  ++ section_row "[bold]References[/bold]" (references response).

Definition print_structured (response : StudyAssistantResponse) : printed :=
  Panel (lit "Study Assistant") (table_rows response).

Definition banner : printed :=
  Text (lit "[bold cyan]Type your question. Ctrl+C to exit.[/bold cyan]").

Definition goodbye : printed :=
  Text (nl ++ lit "[bold yellow]Goodbye![/bold yellow]").

(** [except KeyboardInterrupt] *)
Definition is_keyboard_interrupt (e : exn) : bool :=
  match e with
  | OtherError cls => bool_decide (cls = lit "KeyboardInterrupt")
  | _ => false
  end.

Section WithBackend.
Context {B : Backend}.

(** [StudyAssistant.__init__]. Building the chat model, the embeddings and
    the vector store may raise; [capabilities] is what building them
    gives: the collection found at [persist_path], or the exception of
    whichever constructor failed. The assistant starts with no session. *)
Definition new_assistant (capabilities : result VectorStore)
  : result (StudyAssistant B) :=
  match capabilities with
  | Ok vs => Ok {| _message_store := ∅; _vectorstore := vs; llm_calls := [] |}
  | Raise e => Raise e
  end.

(** [build_assistant] of [main.py] and [build_assistant_singleton] of
    [api/server.py]: both refuse to build without an API key, before any
    constructor runs. *)
Definition build_assistant (environ : gmap pystr pystr)
  (capabilities : result VectorStore) : result (StudyAssistant B) :=
  if truthy (groq_api_key (get_settings environ))
  then new_assistant capabilities
  else Raise (OtherError (lit "RuntimeError")).

(** The [while True] loop of [interactive_chat], on the lines the user
    types before pressing Ctrl+C. It gives what was printed, the exception
    that ended the loop if one did, and the assistant afterwards. *)
Fixpoint chat_loop (inputs : list pystr) (session_id : pystr)
  (self : StudyAssistant B)
  : list printed * option exn * StudyAssistant B :=
  match inputs with
  | [] => ([goodbye], None, self)
  | user :: inputs' =>
      match strip user with
      | [] => chat_loop inputs' session_id self
      | _ :: _ =>
          match ask user session_id (lit "short") self with
          | (Ok response, self') =>
              let '(out, e, self'') := chat_loop inputs' session_id self' in
              (print_structured response :: out, e, self'')
          | (Raise e, self') =>
              if is_keyboard_interrupt e then ([goodbye], None, self')
              else ([], Some e, self')
          end
      end
  end.

Definition interactive_chat (inputs : list pystr) (session_id : pystr)
  (self : StudyAssistant B)
  : list printed * option exn * StudyAssistant B :=
  let '(out, e, self') := chat_loop inputs session_id self in
  (banner :: out, e, self').

End WithBackend.

End Console.

(** ** [src/api/server.py]: the HTTP front end *)

Module Server.
Import Assistant.

(** [class ChatRequest(BaseModel)] after validation: [session_id] and
    [style] may be null. *)
Record ChatRequest := {
  message : pystr;
  session_id : option pystr;
  style : option pystr
}.

(** The defaults of [ChatRequest] for fields the request leaves out. *)
Definition chat_request (message : pystr) : ChatRequest :=
  {| message := message;
     session_id := Some (lit "default");
     style := Some (lit "short") |}.

(** [class ChatResponse(BaseModel)] *)
Record ChatResponse := {
  answer : pystr;
  key_points : list pystr;
  suggested_questions : list pystr;
  references : list pystr
}.

(** What an endpoint does: respond, raise [HTTPException], or let an
    exception through that its handler does not catch. *)
Inductive http (A : Type) :=
| Respond (a : A)
| HTTPException (status_code : nat) (detail : pystr)
| Uncaught (exc : exn).
Arguments Respond {A} a.
Arguments HTTPException {A} status_code detail.
Arguments Uncaught {A} exc.

(** The classes that derive from [BaseException] and not from
    [Exception]. *)
Definition base_only : list pystr :=
  [lit "KeyboardInterrupt"; lit "SystemExit"; lit "GeneratorExit";
   lit "CancelledError"].

(** [except Exception] *)
Definition is_Exception (e : exn) : bool :=
  match e with
  | OtherError cls => negb (bool_decide (cls ∈ base_only))
  | _ => true
  end.

(** [x or d] on an optional string. *)
Definition or_else (x : option pystr) (d : pystr) : pystr :=
  if truthy x then default [] x else d.

(** [f"Received style: {req.style}"] *)
Definition debug_line (req : ChatRequest) : pystr :=
  lit "Received style: " ++ default (lit "None") (style req).

Section WithBackend.
Context {B : Backend}.

(** [str(exc)], which the source leaves to the exception classes. *)
Variable str_exc : exn -> pystr.

(** [POST /chat]: the response or the exception, the line printed, and the
    assistant afterwards. *)
Definition chat (req : ChatRequest) (assistant : StudyAssistant B)
  : http ChatResponse * pystr * StudyAssistant B :=
  match ask (message req)
          (or_else (session_id req) (lit "default"))
          (or_else (style req) (lit "short")) assistant with
  | (Ok result, assistant') =>
      (Respond {| answer := Assistant.answer result;
                  key_points := Assistant.key_points result;
                  suggested_questions := Assistant.suggested_questions result;
                  references := Assistant.references result |},
       debug_line req, assistant')
  | (Raise exc, assistant') =>
      (if is_Exception exc then HTTPException 500 (str_exc exc)
       else Uncaught exc,
       debug_line req, assistant')
  end.

(** [DELETE /session/{session_id}]; the response body is [{"ok": ...}]. *)
Definition reset_session (session_id : pystr) (assistant : StudyAssistant B)
  : http bool * StudyAssistant B :=
  match Assistant.reset_session session_id assistant with
  | (Ok _, assistant') => (Respond true, assistant')
  | (Raise exc, assistant') =>
      (if is_Exception exc then HTTPException 500 (str_exc exc)
       else Uncaught exc,
       assistant')
  end.

End WithBackend.

End Server.

(** ** Vocabulary for further properties *)

Module Vocabulary.

(** [t] holds no backtick. *)
Definition no_backtick (t : pystr) : bool :=
  forallb (fun c => negb (c =? 96)%N) t.

(** [user.strip()] is not empty. *)
Definition nonblank (user : pystr) : bool :=
  match strip user with
  | [] => false
  | _ :: _ => true
  end.

End Vocabulary.

Export Vocabulary.

(** ** More concrete backends *)

Module Scenario2.
Import Assistant Scenario.

(** The note store cannot be read. *)
Definition offline : Backend :=
  {| VectorStore := toy_store;
     retriever_invoke := fun _ _ _ => Raise (OtherError (lit "StorageError"));
     add_texts := toy_add;
     complete := fun _ _ _ => Ok (answer_only (lit "unused")) |}.

(** A store that holds one note of an earlier exchange. *)
Definition one_note : toy_store :=
  {| writable := true;
     stored := [ {| page_content := lit "Question: q";
                    metadata := Some {[ lit "source" := lit "assistant_session_memory" ]} |} ] |}.

End Scenario2.

(** ** Requests as [chat] reads them *)

Module Requests.
Import Assistant Server.

(** The request with the session id and the style that [chat] and [ask]
    end up using. *)
Definition effective (req : ChatRequest) : ChatRequest :=
  {| message := message req;
     session_id := Some (or_else (session_id req) (lit "default"));
     style := Some (normalize_style (or_else (style req) (lit "short"))) |}.

(** The environment of a process that was given an API key. *)
Definition with_key : gmap pystr pystr :=
  {[ lit "GROQ_API_KEY" := lit "gsk_test" ]}.

(** The environment of a process whose API key is set but empty. *)
Definition empty_key : gmap pystr pystr :=
  {[ lit "GROQ_API_KEY" := [] ]}.

End Requests.

(** ** Backends whose completions go through a client *)

Module ClientScenario.
Import Assistant GroqClient Scenario.

(** The toy note store with the chat model behind the client [c]. *)
Definition through (c : client) : Backend :=
  {| VectorStore := toy_store;
     retriever_invoke := fun vs _ k => Ok (take k (stored vs));
     add_texts := toy_add;
     complete := client_complete c |}.

(** The errors on which the client sends again: no connection, a timeout,
    a rate limit, a server error. *)
Definition transient (e : exn) : bool :=
  match e with
  | OtherError cls =>
      bool_decide (cls ∈ [lit "APIConnectionError"; lit "APITimeoutError";
                          lit "RateLimitError"; lit "InternalServerError"])
  | _ => false
  end.

(** The client with the retry setting of its library, two, and a provider
    that cannot be reached. *)
Definition cut_off : client :=
  {| max_retries := 2;
     should_retry := transient;
     post := fun _ _ _ _ => Raise (OtherError (lit "APIConnectionError")) |}.

(** A chat model whose [json_mode] reply lacks the [answer] field and whose
    [json_schema] reply is complete. *)
Definition malformed : Backend :=
  toy_backend (fun m =>
    match m with
    | json_mode =>
        Ok {| f_answer := None; f_key_points := Some [lit "a point"];
              f_suggested_questions := None; f_references := None |}
    | json_schema => Ok (answer_only (lit "A derivative is a rate of change."))
    end).

End ClientScenario.
Example sanitize_ex1 :
  _sanitize_answer (lit "My reasoning skills are great.")
  = lit "My reasoning skills are great.".
Proof. vm_compute. reflexivity. Qed.

Example sanitize_ex2 :
  _sanitize_answer (lit "Reasoning: the sky is blue" ++ nl ++ lit "Final answer here")
  = lit "Final answer here".
Proof. vm_compute. reflexivity. Qed.

(** ** Facts about [strip] *)

Module StripFacts.

Definition starts_space (t : pystr) : bool :=
  match t with
  | c :: _ => isspace c
  | [] => false
  end.

(** No white space at either end. *)
Definition stripped (t : pystr) : bool :=
  negb (starts_space t) && negb (starts_space (rev t)).

Lemma lstrip_starts t : starts_space (lstrip t) = false.
Proof.
  induction t as [|c t IH]; simpl; [reflexivity|].
  destruct (isspace c) eqn:E; [exact IH | simpl; exact E].
Qed.

Lemma lstrip_id t : starts_space t = false -> lstrip t = t.
Proof. destruct t as [|c t]; simpl; [reflexivity|]. intros ->. reflexivity. Qed.

Lemma lstrip_length t : length (lstrip t) <= length t.
Proof.
  induction t as [|c t IH]; simpl; [lia|].
  destruct (isspace c); simpl; lia.
Qed.

Lemma lstrip_snoc a c :
  isspace c = false -> exists a', lstrip (a ++ [c]) = a' ++ [c].
Proof.
  intros Hc. induction a as [|x a IH]; simpl.
  - rewrite Hc. exists []. reflexivity.
  - destruct (isspace x).
    + exact IH.
    + exists (x :: a). reflexivity.
Qed.

Lemma rstrip_starts t : starts_space t = false -> starts_space (rstrip t) = false.
Proof.
  unfold rstrip. destruct t as [|c t]; simpl; [reflexivity|].
  intros Hc. destruct (lstrip_snoc (rev t) c Hc) as [a' ->].
  rewrite rev_app_distr. simpl. exact Hc.
Qed.

Lemma rstrip_ends t : starts_space (rev (rstrip t)) = false.
Proof. unfold rstrip. rewrite rev_involutive. apply lstrip_starts. Qed.

Lemma rstrip_id t : starts_space (rev t) = false -> rstrip t = t.
Proof. unfold rstrip. intros H. rewrite lstrip_id by exact H. apply rev_involutive. Qed.

Lemma rstrip_length t : length (rstrip t) <= length t.
Proof.
  unfold rstrip. rewrite length_rev.
  etransitivity; [apply lstrip_length|]. rewrite length_rev. lia.
Qed.

Lemma stripped_strip t : stripped (strip t) = true.
Proof.
  unfold stripped, strip.
  rewrite rstrip_starts by apply lstrip_starts.
  rewrite rstrip_ends. reflexivity.
Qed.

Lemma strip_id t : stripped t = true -> strip t = t.
Proof.
  unfold stripped, strip. intros H.
  apply andb_true_iff in H as [H1 H2].
  apply negb_true_iff in H1, H2.
  rewrite (lstrip_id t H1). apply rstrip_id. exact H2.
Qed.

Lemma strip_fixpoint t : strip t = t <-> stripped t = true.
Proof.
  split; [|apply strip_id].
  intros H. rewrite <- H. apply stripped_strip.
Qed.

Lemma strip_strip t : strip (strip t) = strip t.
Proof. apply strip_id, stripped_strip. Qed.

Lemma strip_length t : length (strip t) <= length t.
Proof.
  unfold strip. etransitivity; [apply rstrip_length | apply lstrip_length].
Qed.

End StripFacts.

(** ** Facts about the matcher, for any pattern *)

Module ReFacts.
Import Re.

Lemma lazy_star_advance f a pos rest s' :
  In s' (lazy_star f a pos rest) ->
  exists pre, rest = pre ++ snd s' /\ fst s' = pos + length pre.
Proof.
  revert pos. induction rest as [|c rest IH]; intros pos; simpl.
  - intros [<-|[]]. exists []. simpl. split; [reflexivity | lia].
  - intros [<-|H].
    + exists []. simpl. split; [reflexivity | lia].
    + destruct (atom_match f a c); [|destruct H].
      destruct (IH _ H) as (pre & -> & ->).
      exists (c :: pre). simpl. split; [reflexivity | lia].
Qed.

(** Every match consumes a prefix of the text ahead and moves the index by
    its length. *)
Lemma ms_advance f r : forall s s',
  In s' (ms f r s) ->
  exists pre, snd s = pre ++ snd s' /\ fst s' = fst s + length pre.
Proof.
  assert (Hrefl : forall s : mstate,
             exists pre, snd s = pre ++ snd s /\ fst s = fst s + length pre).
  { intros s. exists []. simpl. split; [reflexivity | lia]. }
  induction r as [|a| | |r1 IH1 r2 IH2|r1 IH1 r2 IH2|r1 IH1|a];
    intros [pos rest] s'; simpl.
  - intros [<-|[]]. apply (Hrefl (pos, rest)).
  - destruct rest as [|c rest]; [intros []|].
    destruct (atom_match f a c); [|intros []].
    intros [<-|[]]. exists [c]. simpl. split; [reflexivity | lia].
  - destruct (Nat.eqb pos 0); [|intros []]. intros [<-|[]]. apply (Hrefl (pos, rest)).
  - destruct rest as [|c [|c' rest]].
    + intros [<-|[]]. apply (Hrefl (pos, [])).
    + destruct (c =? 10)%N; [|intros []]. intros [<-|[]]. apply (Hrefl (pos, [c])).
    + intros [].
  - intros H. apply in_flat_map in H as (s1 & H1 & H2).
    destruct (IH1 _ _ H1) as (pre1 & E1 & P1).
    destruct (IH2 _ _ H2) as (pre2 & E2 & P2).
    simpl in *. exists (pre1 ++ pre2).
    rewrite E1, E2, P2, P1, length_app, <- app_assoc. split; [reflexivity | lia].
  - intros H. apply in_app_or in H as [H|H]; [exact (IH1 _ _ H) | exact (IH2 _ _ H)].
  - intros H. apply in_app_or in H as [H|[<-|[]]]; [exact (IH1 _ _ H) | apply (Hrefl (pos, rest))].
  - apply lazy_star_advance.
Qed.

Lemma match_at_advance f r pos rest pos' rest' :
  match_at f r (pos, rest) = Some (pos', rest') ->
  exists c pre, rest = c :: pre ++ rest' /\ pos' = S (pos + length pre).
Proof.
  unfold match_at. intros H. apply find_some in H as [Hin Hlt].
  apply ms_advance in Hin as (pre & E & P). simpl in *.
  apply Nat.ltb_lt in Hlt.
  destruct pre as [|c pre]; simpl in *; [lia|].
  exists c, pre. split; [exact E | lia].
Qed.

Lemma sub_from_length f r : forall rest skip pos,
  length (sub_from f r skip pos rest) <= length rest.
Proof.
  induction rest as [|c rest IH]; intros skip pos; [simpl; lia|].
  cbn [sub_from]. destruct skip as [|k].
  - destruct (match_at _ _ _) as [[pos' ?]|]; cbn [length].
    + etransitivity; [apply IH | lia].
    + apply le_n_S, IH.
  - cbn [length]. etransitivity; [apply IH | lia].
Qed.

(** Dropping the rest of a match, then going on after it. *)
Lemma sub_from_skip f r : forall pre pos rest,
  sub_from f r (length pre) pos (pre ++ rest)
  = sub_from f r 0 (pos + length pre) rest.
Proof.
  induction pre as [|c pre IH]; intros pos rest; simpl.
  - rewrite Nat.add_0_r. reflexivity.
  - rewrite IH. f_equal. lia.
Qed.

Lemma sub_from_some f r pos rest pos' rest' :
  match_at f r (pos, rest) = Some (pos', rest') ->
  sub_from f r 0 pos rest = sub_from f r 0 pos' rest'.
Proof.
  intros H. destruct (match_at_advance _ _ _ _ _ _ H) as (c & pre & -> & ->).
  cbn [sub_from]. rewrite H.
  replace (S (pos + length pre) - pos - 1) with (length pre) by lia.
  rewrite sub_from_skip. reflexivity.
Qed.

Lemma sub_from_none f r pos c rest :
  match_at f r (pos, c :: rest) = None ->
  sub_from f r 0 pos (c :: rest) = c :: sub_from f r 0 (S pos) rest.
Proof. cbn [sub_from]. intros ->. reflexivity. Qed.

(** No match anywhere: the substitution changes nothing. *)
Lemma sub_from_not_found f r : forall rest pos,
  search_from f r pos rest = false -> sub_from f r 0 pos rest = rest.
Proof.
  induction rest as [|c rest IH]; intros pos; simpl; [reflexivity|].
  destruct (match_at _ _ _) as [[pos' ?]|]; [discriminate|].
  intros H. rewrite IH by exact H. reflexivity.
Qed.

(** A match somewhere: the substitution removes at least one character. *)
Lemma sub_from_found f r : forall rest pos,
  search_from f r pos rest = true ->
  length (sub_from f r 0 pos rest) < length rest.
Proof.
  induction rest as [|c rest IH]; intros pos.
  - simpl. destruct (match_at _ _ _) as [[pos' rest']|] eqn:E.
    + apply match_at_advance in E as (c & pre & E & _). discriminate.
    + discriminate.
  - cbn [search_from sub_from].
    destruct (match_at _ _ _) as [[pos' rest']|] eqn:E.
    + intros _. pose proof (sub_from_length f r rest (pos' - pos - 1) (S pos)).
      simpl. lia.
    + intros H. specialize (IH _ H). simpl. lia.
Qed.

Lemma sub_not_found f r t : search f r t = false -> sub f r t = t.
Proof. apply sub_from_not_found. Qed.

Lemma sub_found f r t : search f r t = true -> length (sub f r t) < length t.
Proof. apply sub_from_found. Qed.

Lemma sub_length f r t : length (sub f r t) <= length t.
Proof. apply sub_from_length. Qed.

End ReFacts.


(** ** Facts about the four patterns *)

Module PatternFacts.
Import Re ReFacts StripFacts.

(** Case analysis on the comparisons that decide a character test. *)
Ltac char_cases :=
  unfold lit_match, lower, fixes, is_ascii_letter, isspace; cbn;
  repeat match goal with
    | |- context [(?a <=? ?b)%N] => destruct (N.leb_spec a b); cbn in *
    | H : context [(?a <=? ?b)%N] |- _ => destruct (N.leb_spec a b); cbn in *
    | |- context [(?a =? ?b)%N] => destruct (N.eqb_spec a b); subst; cbn in *
    | H : context [(?a =? ?b)%N] |- _ => destruct (N.eqb_spec a b); subst; cbn in *
    end;
  try reflexivity; try discriminate; try lia.

Lemma lit_match_uncased f p c :
  is_ascii_letter p = false -> lit_match f p c = (c =? p)%N.
Proof. unfold lit_match. intros ->. rewrite andb_false_r. reflexivity. Qed.

Lemma lit_match_s_colon c :
  lit_match flags_i 115 c = true -> (c =? 58)%N = false.
Proof. char_cases. Qed.

Lemma lit_match_t_c c :
  lit_match flags_i 116 c = true -> lit_match flags_i 99 c = false.
Proof. char_cases. Qed.

Lemma lit_match_t_a c :
  lit_match flags_i 116 c = true -> lit_match flags_i 97 c = false.
Proof. char_cases. Qed.

Lemma lit_match_c_a c :
  lit_match flags_i 99 c = true -> lit_match flags_i 97 c = false.
Proof. char_cases. Qed.

Lemma lit_match_sep_o c :
  ((c =? 45) || (c =? 32))%N = true -> lit_match flags_i 111 c = false.
Proof. char_cases. Qed.

Lemma lit_match_sep_t c :
  ((c =? 45) || (c =? 32))%N = true -> lit_match flags_i 116 c = false.
Proof. char_cases. Qed.

Lemma lits_match_flags ps : forall t,
  lits_match flags_is ps t = lits_match flags_i ps t.
Proof.
  induction ps as [|p ps IH]; intros [|c t]; simpl; try reflexivity.
  rewrite IH. reflexivity.
Qed.

Lemma lits_match_length f ps : forall t r,
  lits_match f ps t = Some r -> length t = length ps + length r.
Proof.
  induction ps as [|p ps IH]; intros t r; simpl.
  - intros [= ->]. reflexivity.
  - destruct t as [|c t]; [discriminate|].
    destruct (lit_match f p c); [|discriminate].
    intros H. apply IH in H. simpl. lia.
Qed.

Lemma lits_match_app f ps : forall t r,
  lits_match f ps t = Some r -> exists pre, t = pre ++ r /\ length pre = length ps.
Proof.
  induction ps as [|p ps IH]; intros t r; simpl.
  - intros [= ->]. exists []. split; reflexivity.
  - destruct t as [|c t]; [discriminate|].
    destruct (lit_match f p c); [|discriminate].
    intros H. destruct (IH _ _ H) as (pre & -> & E).
    exists (c :: pre). simpl. split; [reflexivity | lia].
Qed.

(** A run of literals matches in one way at most. *)
Lemma ms_lits f ps : forall pos t,
  ms f (lits ps) (pos, t)
  = match lits_match f ps t with
    | Some r => [(pos + length ps, r)]
    | None => []
    end.
Proof.
  induction ps as [|p ps IH]; intros pos t; cbn [lits fold_right lits_match].
  - cbn. rewrite Nat.add_0_r. reflexivity.
  - change (fold_right (fun c r => Seq (Atom (Lit c)) r) Empty ps) with (lits ps).
    cbn [ms fst snd atom_match].
    destruct t as [|c t]; [reflexivity|].
    destruct (lit_match f p c); [|reflexivity].
    cbn [flat_map]. rewrite IH, app_nil_r.
    destruct (lits_match f ps t); [|reflexivity].
    cbn [length]. do 2 f_equal. lia.
Qed.

Lemma ms_seq_lits f ps K pos t :
  ms f (Seq (lits ps) K) (pos, t)
  = match lits_match f ps t with
    | Some r => ms f K (pos + length ps, r)
    | None => []
    end.
Proof.
  cbn [ms]. rewrite ms_lits.
  destruct (lits_match f ps t); cbn [flat_map]; [apply app_nil_r | reflexivity].
Qed.

Lemma ms_seq_lit f p K pos t :
  ms f (Seq (Atom (Lit p)) K) (pos, t)
  = match t with
    | c :: t' => if lit_match f p c then ms f K (S pos, t') else []
    | [] => []
    end.
Proof.
  cbn [ms fst snd atom_match]. destruct t as [|c t]; [reflexivity|].
  destruct (lit_match f p c); cbn [flat_map]; [apply app_nil_r | reflexivity].
Qed.

Lemma find_head {A} (P : A -> bool) (l : list A) :
  (forall x, In x l -> P x = true) -> List.find P l = hd_error l.
Proof.
  destruct l as [|x l]; [reflexivity|].
  intros H. simpl. rewrite (H x (or_introl eq_refl)). reflexivity.
Qed.

Lemma after_line_length t : length (after_line t) <= length t.
Proof.
  induction t as [|x t IH]; simpl; [lia|].
  destruct (x =? 10)%N; simpl; lia.
Qed.

Lemma ms_eol_alt c t pos :
  ms flags_i (Alt (Atom (Lit 10%N)) Eol) (pos, c :: t)
  = if (c =? 10)%N
    then (S pos, t) :: (if decide (t = []) then [(pos, c :: t)] else [])
    else [].
Proof.
  cbn [ms fst snd atom_match].
  rewrite (lit_match_uncased flags_i 10 c eq_refl).
  destruct (c =? 10)%N eqn:E; destruct t; cbn; rewrite ?E; reflexivity.
Qed.

Lemma ms_seq_star_nil f a K pos :
  ms f (Seq (LazyStar a) K) (pos, []) = ms f K (pos, []).
Proof. cbn [ms fst snd lazy_star flat_map]. apply app_nil_r. Qed.

Lemma ms_seq_star_cons f a K pos c t :
  ms f (Seq (LazyStar a) K) (pos, c :: t)
  = ms f K (pos, c :: t)
    ++ (if atom_match f a c then ms f (Seq (LazyStar a) K) (S pos, t) else []).
Proof.
  cbn [ms fst snd lazy_star flat_map].
  destruct (atom_match f a c); reflexivity.
Qed.

(** The first way [.*?(\n|$)] matches: through the first newline, or to the
    end of the text when there is none. *)
Lemma ms_to_eol_head : forall t pos,
  hd_error (ms flags_i to_eol (pos, t))
  = Some (pos + (length t - length (after_line t)), after_line t).
Proof.
  unfold to_eol. induction t as [|c t IH]; intros pos.
  - cbn. rewrite Nat.add_0_r. reflexivity.
  - pose proof (after_line_length t) as Hlen.
    rewrite ms_seq_star_cons, ms_eol_alt. cbn [after_line atom_match].
    destruct (c =? 10)%N.
    + cbn [app hd_error length]. do 2 f_equal. lia.
    + cbn [app dotall flags_i orb negb]. rewrite IH.
      cbn [length]. do 2 f_equal. lia.
Qed.

(** After a match of an anchored pattern nothing further can match. *)
Lemma sub_from_anchored f r : forall t pos,
  (forall pos' t', pos' <> 0 -> ms f r (pos', t') = []) ->
  sub_from f r 0 (S pos) t = t.
Proof.
  intros t pos H. apply sub_from_not_found.
  revert pos. induction t as [|c t IH]; intros pos; cbn [search_from];
    unfold match_at; rewrite H by lia; cbn [List.find].
  - reflexivity.
  - apply IH.
Qed.

(** The substitution of a pattern anchored at the start of the text, whose
    tail is [.*?(\n|$)]: the marker and the rest of its line go. *)
Lemma sub_line f r (marker : pystr -> option pystr) :
  (forall pos t, pos <> 0 -> ms f r (pos, t) = []) ->
  (forall t, match marker t with
             | Some rest => exists p0, ms f r (0, t) = ms flags_i to_eol (S p0, rest)
             | None => ms f r (0, t) = []
             end) ->
  forall t, sub f r t = match marker t with
                        | Some rest => after_line rest
                        | None => t
                        end.
Proof.
  intros Hpos Hzero t. unfold sub. specialize (Hzero t).
  destruct (marker t) as [rest|].
  - destruct Hzero as [p0 Hz].
    assert (Hm : match_at f r (0, t)
                 = Some (S p0 + (length rest - length (after_line rest)),
                         after_line rest)).
    { unfold match_at. rewrite Hz, find_head; [apply ms_to_eol_head|].
      intros x Hx. apply ms_advance in Hx as (pre & _ & ->).
      apply Nat.ltb_lt. cbn. lia. }
    rewrite (sub_from_some _ _ _ _ _ _ Hm).
    apply sub_from_anchored. exact Hpos.
  - destruct t as [|c t]; [reflexivity|].
    rewrite sub_from_none; [|unfold match_at; rewrite Hzero; reflexivity].
    f_equal. apply sub_from_anchored. exact Hpos.
Qed.


Lemma ms_bol f K pos t :
  ms f (Seq Bol K) (pos, t) = if Nat.eqb pos 0 then ms f K (pos, t) else [].
Proof.
  cbn [ms fst]. destruct (Nat.eqb pos 0); cbn [flat_map];
    [apply app_nil_r | reflexivity].
Qed.

Lemma ms_bol_later f K pos t : pos <> 0 -> ms f (Seq Bol K) (pos, t) = [].
Proof.
  intros H. rewrite ms_bol. apply Nat.eqb_neq in H. rewrite H. reflexivity.
Qed.

Lemma lits_match_snoc f p ps : forall t,
  lits_match f (ps ++ [p]) t
  = match lits_match f ps t with
    | Some (c :: r) => if lit_match f p c then Some r else None
    | _ => None
    end.
Proof.
  induction ps as [|q ps IH]; intros t; cbn [app lits_match].
  - destruct t as [|c t]; reflexivity.
  - destruct t as [|c t]; [reflexivity|].
    destruct (lit_match f q c); [apply IH | reflexivity].
Qed.

(** [(?i)^LABEL:.*?(\n|$)] removes a leading LABEL and colon with the rest
    of their line, and nothing else. *)
Lemma sub_label_line (L : pystr) t :
  sub flags_i (Seq Bol (Seq (lits L) (Seq (Atom (Lit 58%N)) to_eol))) t
  = match lits_match flags_i (L ++ [58%N]) t with
    | Some rest => after_line rest
    | None => t
    end.
Proof.
  apply (sub_line flags_i _ (lits_match flags_i (L ++ [58%N]))).
  - intros pos u H. apply ms_bol_later. exact H.
  - intros u. rewrite ms_bol, ms_seq_lits, lits_match_snoc. cbn [Nat.eqb].
    destruct (lits_match flags_i L u) as [[|c r]|]; try reflexivity.
    rewrite ms_seq_lit. destruct (lit_match flags_i 58 c); [|reflexivity].
    eexists. reflexivity.
Qed.

Lemma sub_reasoning t :
  sub flags_i pat_reasoning t
  = match reasoning_marker t with
    | Some rest => after_line rest
    | None => t
    end.
Proof. apply (sub_label_line (lit "reasoning")). Qed.

Lemma sub_analysis t :
  sub flags_i pat_analysis t
  = match analysis_marker t with
    | Some rest => after_line rest
    | None => t
    end.
Proof. apply (sub_label_line (lit "analysis")). Qed.

Lemma ms_seq_opt f a K pos t :
  ms f (Seq (Opt (Atom a)) K) (pos, t)
  = match t with
    | c :: t' =>
        if atom_match f a c then ms f K (S pos, t') ++ ms f K (pos, t)
        else ms f K (pos, t)
    | [] => ms f K (pos, [])
    end.
Proof.
  cbn [ms fst snd]. destruct t as [|c t'].
  - cbn [app flat_map]. apply app_nil_r.
  - destruct (atom_match f a c); cbn [app flat_map]; rewrite !app_nil_r;
      reflexivity.
Qed.

Lemma thoughts_marker_unfold t :
  thoughts_marker t
  = match ci_starts "thought" t with
    | Some (c :: r) =>
        if lit_match flags_i 115 c then
          match r with
          | c' :: r' => if (c' =? 58)%N then Some r' else None
          | [] => None
          end
        else if (c =? 58)%N then Some r else None
    | _ => None
    end.
Proof.
  unfold thoughts_marker, ci_starts.
  change (lit "thoughts:") with ((lit "thought" ++ [115%N]) ++ [58%N]).
  change (lit "thought:") with (lit "thought" ++ [58%N]).
  rewrite !lits_match_snoc.
  destruct (lits_match flags_i (lit "thought") t) as [[|c r]|]; try reflexivity.
  rewrite !(lit_match_uncased flags_i 58 _ eq_refl).
  destruct (lit_match flags_i 115 c) eqn:Es.
  - rewrite (lit_match_s_colon c Es).
    destruct r as [|c' r']; [reflexivity|].
    rewrite (lit_match_uncased flags_i 58 _ eq_refl).
    destruct (c' =? 58)%N; reflexivity.
  - reflexivity.
Qed.

Lemma sub_thoughts t :
  sub flags_i pat_thoughts t
  = match thoughts_marker t with
    | Some rest => after_line rest
    | None => t
    end.
Proof.
  apply (sub_line flags_i _ thoughts_marker).
  - intros pos u H. apply ms_bol_later. exact H.
  - intros u. unfold pat_thoughts, str.
    rewrite ms_bol, ms_seq_lits, thoughts_marker_unfold. cbn [Nat.eqb].
    unfold ci_starts.
    destruct (lits_match flags_i (lit "thought") u) as [[|c r]|];
      try reflexivity.
    rewrite ms_seq_opt. cbn [atom_match].
    destruct (lit_match flags_i 115 c) eqn:Es.
    + rewrite !ms_seq_lit, !(lit_match_uncased flags_i 58 _ eq_refl).
      rewrite (lit_match_s_colon c Es), !app_nil_r.
      destruct r as [|c' r']; [reflexivity|].
      rewrite ?(lit_match_uncased flags_i 58 _ eq_refl).
      destruct (c' =? 58)%N; [eexists|]; reflexivity.
    + rewrite !ms_seq_lit, !(lit_match_uncased flags_i 58 _ eq_refl).
      destruct (c =? 58)%N; [eexists|]; reflexivity.
Qed.

Lemma ms_alt f r1 r2 s : ms f (Alt r1 r2) s = ms f r1 s ++ ms f r2 s.
Proof. reflexivity. Qed.

Lemma ms_seq f r1 r2 s : ms f (Seq r1 r2) s = flat_map (ms f r2) (ms f r1 s).
Proof. reflexivity. Qed.

Lemma lits_match_first f p ps t r :
  lits_match f (p :: ps) t = Some r ->
  exists c t', t = c :: t' /\ lit_match f p c = true.
Proof.
  destruct t as [|c t']; cbn [lits_match]; [discriminate|].
  destruct (lit_match f p c) eqn:E; [|discriminate].
  intros _. exists c, t'. split; [reflexivity | exact E].
Qed.

Lemma skip_sep_length r : length (skip_sep r) <= length r.
Proof.
  destruct r as [|c r]; cbn [skip_sep]; [lia|].
  destruct ((c =? 45) || (c =? 32))%N; cbn [length]; lia.
Qed.

(** [[- ]?K] when [K] cannot start on a separator: the separator, if there,
    is taken. *)
Lemma ms_opt_sep f K p r :
  (forall c t' q, ((c =? 45) || (c =? 32))%N = true -> ms f K (q, c :: t') = []) ->
  ms f (Seq opt_sep K) (p, r)
  = ms f K (p + (length r - length (skip_sep r)), skip_sep r).
Proof.
  intros HK. unfold opt_sep. rewrite ms_seq_opt.
  destruct r as [|c r]; cbn [skip_sep atom_match existsb item_match].
  - cbn [length]. rewrite Nat.add_0_r. reflexivity.
  - rewrite orb_false_r.
    destruct ((c =? 45) || (c =? 32))%N eqn:E.
    + rewrite (HK _ _ _ E), app_nil_r. f_equal. f_equal. cbn [length]. lia.
    + rewrite Nat.sub_diag, Nat.add_0_r. reflexivity.
Qed.

Lemma lit_match_is p c : lit_match flags_is p c = lit_match flags_i p c.
Proof. reflexivity. Qed.

Lemma label_rest_length t r : label_rest t = Some r -> length r < length t.
Proof.
  unfold label_rest, ci_starts.
  destruct (lits_match flags_i (lit "thought") t) as [r0|] eqn:E0.
  - intros [= <-]. apply lits_match_length in E0. cbn in E0. lia.
  - destruct (lits_match flags_i (lit "chain") t) as [r1|] eqn:E1.
    + destruct (lits_match flags_i (lit "of") (skip_sep r1)) as [r2|] eqn:E2;
        [|discriminate].
      intros E3.
      apply lits_match_length in E1, E2, E3. cbn in E1, E2, E3.
      pose proof (skip_sep_length r1). pose proof (skip_sep_length r2). lia.
    + intros E2. apply lits_match_length in E2. cbn in E2. lia.
Qed.

(** The label alternatives exclude one another, so the label matches in one
    way at most. *)
Lemma ms_label pos t :
  ms flags_is fence_label (pos, t)
  = match label_rest t with
    | Some r => [(pos + (length t - length r), r)]
    | None => []
    end.
Proof.
  pose proof (label_rest_length t) as Hlen.
  unfold fence_label, str. rewrite !ms_alt, !ms_lits, ms_seq_lits.
  rewrite !lits_match_flags.
  unfold label_rest, ci_starts in *.
  destruct (lits_match flags_i (lit "thought") t) as [r0|] eqn:E0.
  - destruct (lits_match_first _ _ _ _ _ E0) as (c & t' & -> & Hc).
    cbn [lit list_ascii_of_string map lits_match].
    change (N_of_ascii "c") with 99%N. change (N_of_ascii "a") with 97%N.
    rewrite (lit_match_t_c c Hc), (lit_match_t_a c Hc). cbn [app].
    apply lits_match_length in E0. cbn in E0. cbn [length].
    do 2 f_equal. lia.
  - cbn [app].
    destruct (lits_match flags_i (lit "chain") t) as [r1|] eqn:E1.
    + destruct (lits_match_first _ _ _ _ _ E1) as (c & t' & -> & Hc).
      assert (Ea : lits_match flags_i (lit "analysis") (c :: t') = None).
      { cbn [lit list_ascii_of_string map lits_match].
        change (N_of_ascii "a") with 97%N.
        rewrite (lit_match_c_a c Hc). reflexivity. }
      rewrite Ea, app_nil_r.
      rewrite ms_opt_sep.
      2:{ intros c0 t0 q Hsep. rewrite ms_seq_lits.
          cbn [lit list_ascii_of_string map lits_match].
          change (N_of_ascii "o") with 111%N.
          rewrite lit_match_is, (lit_match_sep_o c0 Hsep). reflexivity. }
      rewrite ms_seq_lits, lits_match_flags.
      destruct (lits_match flags_i (lit "of") (skip_sep r1)) as [r2|] eqn:E2;
        [|reflexivity].
      rewrite ms_opt_sep.
      2:{ intros c0 t0 q Hsep. rewrite ms_lits.
          cbn [lit list_ascii_of_string map lits_match].
          change (N_of_ascii "t") with 116%N.
          rewrite lit_match_is, (lit_match_sep_t c0 Hsep). reflexivity. }
      rewrite ms_lits, lits_match_flags.
      destruct (lits_match flags_i (lit "thought") (skip_sep r2)) as [r3|] eqn:E3;
        [|reflexivity].
      apply lits_match_length in E1, E2, E3. cbn in E1, E2, E3.
      pose proof (skip_sep_length r1). pose proof (skip_sep_length r2).
      cbn [length lit list_ascii_of_string map] in *.
      do 2 f_equal. lia.
    + cbn [app].
      destruct (lits_match flags_i (lit "analysis") t) as [r1|] eqn:Ea;
        [|reflexivity].
      apply lits_match_length in Ea. cbn in Ea. cbn [length lit list_ascii_of_string map].
      do 2 f_equal. lia.
Qed.

Lemma fence_open_length t r : fence_open t = Some r -> length r + 3 < length t.
Proof.
  unfold fence_open, ci_starts.
  destruct (lits_match flags_i (lit "```") t) as [r0|] eqn:E0; [|discriminate].
  intros H. apply label_rest_length in H.
  apply lits_match_length in E0. cbn in E0. lia.
Qed.

Lemma ms_pat_fence pos t :
  ms flags_is pat_fence (pos, t)
  = match fence_open t with
    | Some r => ms flags_is closing (pos + (length t - length r), r)
    | None => []
    end.
Proof.
  pose proof (fence_open_length t) as Hlen.
  unfold pat_fence, str, fence_open, ci_starts in *.
  rewrite ms_seq_lits, lits_match_flags.
  destruct (lits_match flags_i (lit "```") t) as [r0|] eqn:E0; [|reflexivity].
  rewrite ms_seq, ms_label.
  destruct (label_rest r0) as [r|] eqn:E1; [|reflexivity].
  cbn [flat_map]. rewrite app_nil_r. unfold closing, str.
  specialize (Hlen r eq_refl).
  apply label_rest_length in E1. apply lits_match_length in E0. cbn in E0.
  cbn [length lit list_ascii_of_string map]. do 2 f_equal. lia.
Qed.

Lemma after_fence_length r : forall r',
  after_fence r = Some r' -> length r' + 3 <= length r.
Proof.
  induction r as [|c r IH]; intros r'; cbn [after_fence]; unfold ci_starts.
  - cbn. discriminate.
  - destruct (lits_match flags_i (lit "```") (c :: r)) as [r0|] eqn:E0.
    + intros [= <-]. apply lits_match_length in E0. cbn in E0. cbn [length]. lia.
    + intros H. apply IH in H. cbn [length]. lia.
Qed.

(** The first way the closing part matches: up to the first three
    backticks. *)
Lemma ms_closing_head : forall r p,
  hd_error (ms flags_is closing (p, r))
  = match after_fence r with
    | Some r' => Some (p + (length r - length r'), r')
    | None => None
    end.
Proof.
  unfold closing, str. induction r as [|c r IH]; intros p.
  - reflexivity.
  - pose proof (after_fence_length (c :: r)) as Hlen.
    rewrite ms_seq_star_cons, ms_lits, lits_match_flags.
    cbn [after_fence] in *. unfold ci_starts in *.
    destruct (lits_match flags_i (lit "```") (c :: r)) as [r0|] eqn:E0.
    + cbn [app hd_error]. specialize (Hlen r0 eq_refl).
      apply lits_match_length in E0. cbn in E0.
      cbn [length lit list_ascii_of_string map] in *. do 2 f_equal. lia.
    + cbn [app atom_match existsb item_match].
      destruct (isspace c); cbn [negb orb]; rewrite IH;
        (destruct (after_fence r) as [r'|] eqn:E1; [|reflexivity]);
        specialize (Hlen r' eq_refl); cbn [length] in *; do 2 f_equal; lia.
Qed.

(** The match of the fence pattern at the start of [t]: a labelled block
    through its closing fence. *)
Lemma match_at_fence pos t :
  match_at flags_is pat_fence (pos, t)
  = match fence_block t with
    | Some r' => Some (pos + (length t - length r'), r')
    | None => None
    end.
Proof.
  unfold match_at, fence_block. rewrite ms_pat_fence.
  destruct (fence_open t) as [r|] eqn:E; [|reflexivity].
  apply fence_open_length in E.
  rewrite find_head.
  - rewrite ms_closing_head.
    destruct (after_fence r) as [r'|] eqn:E1; [|reflexivity].
    apply after_fence_length in E1. do 2 f_equal. lia.
  - intros x Hx. apply ms_advance in Hx as (pre & _ & ->).
    apply Nat.ltb_lt. cbn [fst]. lia.
Qed.

Lemma fence_block_length t r : fence_block t = Some r -> length r < length t.
Proof.
  unfold fence_block. destruct (fence_open t) as [r0|] eqn:E; [|discriminate].
  intros H. apply after_fence_length in H. apply fence_open_length in E. lia.
Qed.

(** The fence pattern has no anchor: where the scan stands does not matter. *)
Lemma sub_from_fence_shift : forall n t p q,
  length t <= n ->
  sub_from flags_is pat_fence 0 p t = sub_from flags_is pat_fence 0 q t.
Proof.
  induction n as [|n IH]; intros t p q Hn.
  - destruct t; [reflexivity | cbn in Hn; lia].
  - destruct (fence_block t) as [r|] eqn:E.
    + pose proof (fence_block_length _ _ E) as Hr.
      rewrite (sub_from_some _ _ p t (p + (length t - length r)) r)
        by (rewrite match_at_fence, E; reflexivity).
      rewrite (sub_from_some _ _ q t (q + (length t - length r)) r)
        by (rewrite match_at_fence, E; reflexivity).
      apply IH. lia.
    + destruct t as [|c t]; [reflexivity|].
      rewrite !sub_from_none by (rewrite match_at_fence, E; reflexivity).
      f_equal. apply IH. cbn in Hn. lia.
Qed.

Lemma sub_fence_block t r :
  fence_block t = Some r ->
  sub flags_is pat_fence t = sub flags_is pat_fence r.
Proof.
  intros E. unfold sub.
  rewrite (sub_from_some _ _ 0 t (0 + (length t - length r)) r)
    by (rewrite match_at_fence, E; reflexivity).
  apply (sub_from_fence_shift (length r)). lia.
Qed.

Lemma sub_fence_keep c t :
  fence_block (c :: t) = None ->
  sub flags_is pat_fence (c :: t) = c :: sub flags_is pat_fence t.
Proof.
  intros E. unfold sub.
  rewrite sub_from_none by (rewrite match_at_fence, E; reflexivity).
  f_equal. apply (sub_from_fence_shift (length t)). lia.
Qed.

(** The scan copies the text up to the first labelled block, drops the
    block through its closing fence, and goes on after it. *)
Lemma sub_fence_first pre : forall u post,
  (forall i, i < length pre -> fence_block (drop i (pre ++ u)) = None) ->
  fence_block u = Some post ->
  sub flags_is pat_fence (pre ++ u) = pre ++ sub flags_is pat_fence post.
Proof.
  induction pre as [|c pre IH]; intros u post Hpre Hu; cbn [app].
  - apply sub_fence_block. exact Hu.
  - rewrite sub_fence_keep by (apply (Hpre 0); cbn; lia).
    f_equal. apply IH; [|exact Hu].
    intros i Hi. apply (Hpre (S i)). cbn. lia.
Qed.

Lemma search_from_fence : forall t p,
  search_from flags_is pat_fence p t
  = anywhere (fun u => bool_decide (is_Some (fence_block u))) t.
Proof.
  induction t as [|c t IH]; intros p; cbn [search_from anywhere];
    rewrite match_at_fence.
  - reflexivity.
  - destruct (fence_block (c :: t)) as [r|]; [reflexivity|].
    rewrite IH. reflexivity.
Qed.

Lemma anywhere_false_impl (P Q : pystr -> bool) :
  (forall u, P u = false -> Q u = false) ->
  forall t, anywhere P t = false -> anywhere Q t = false.
Proof.
  intros H. induction t as [|c t IH]; cbn [anywhere]; intros E;
    apply orb_false_iff in E as [E1 E2]; rewrite (H _ E1); [reflexivity|].
  apply IH. exact E2.
Qed.

Lemma search_fence_open t :
  has_fence_open t = false -> search flags_is pat_fence t = false.
Proof.
  unfold search. rewrite search_from_fence. apply anywhere_false_impl.
  intros u. unfold fence_block. destruct (fence_open u); [discriminate|].
  reflexivity.
Qed.

Lemma sanitize_unfold t :
  _sanitize_answer t
  = strip (sub flags_is pat_fence
      (strip (sub flags_i pat_analysis
         (strip (sub flags_i pat_reasoning
            (strip (sub flags_i pat_thoughts t))))))).
Proof. reflexivity. Qed.


(** *** Markers and [strip] *)

Lemma lstrip_app x c z :
  isspace c = false -> lstrip (x ++ c :: z) = lstrip x ++ c :: z.
Proof.
  intros Hc. induction x as [|y x IH]; cbn [app lstrip].
  - rewrite Hc. reflexivity.
  - destruct (isspace y); [exact IH | reflexivity].
Qed.

Lemma rstrip_app a c r :
  isspace c = false -> rstrip (a ++ c :: r) = a ++ c :: rstrip r.
Proof.
  intros Hc. unfold rstrip.
  rewrite rev_app_distr. cbn [rev]. rewrite <- app_assoc. cbn [app].
  rewrite (lstrip_app _ _ _ Hc), rev_app_distr. cbn [rev].
  rewrite rev_involutive, <- app_assoc. reflexivity.
Qed.

Lemma lits_match_rest f ps : forall pre r r',
  length pre = length ps ->
  lits_match f ps (pre ++ r) = Some r ->
  lits_match f ps (pre ++ r') = Some r'.
Proof.
  induction ps as [|p ps IH]; intros [|c pre] r r' Hl; try discriminate.
  - reflexivity.
  - cbn [app lits_match]. destruct (lit_match f p c); [|discriminate].
    apply IH. cbn in Hl. lia.
Qed.

Lemma lits_match_split f ps t r :
  lits_match f ps t = Some r ->
  exists pre, t = pre ++ r /\ length pre = length ps
              /\ forall r', lits_match f ps (pre ++ r') = Some r'.
Proof.
  intros H. destruct (lits_match_app _ _ _ _ H) as (pre & -> & Hl).
  exists pre. split; [reflexivity|]. split; [exact Hl|].
  intros r'. apply (lits_match_rest f ps pre r r' Hl H).
Qed.

(** A marker that starts the text still starts it after [strip]: its first
    letter and its colon are not white space. *)
Lemma marker_strip p0 L t r :
  (forall c, lit_match flags_i p0 c = true -> isspace c = false) ->
  lits_match flags_i ((p0 :: L) ++ [58%N]) t = Some r ->
  lits_match flags_i ((p0 :: L) ++ [58%N]) (strip t) = Some (rstrip r).
Proof.
  intros Hp0 H.
  destruct (lits_match_first _ _ _ _ _ H) as (c0 & t0 & Et & Hc0).
  assert (Hl : lstrip t = t).
  { subst t. cbn [lstrip]. rewrite (Hp0 _ Hc0). reflexivity. }
  unfold strip. rewrite Hl. clear Et Hl Hc0.
  rewrite lits_match_snoc in H.
  destruct (lits_match flags_i (p0 :: L) t) as [[|c r0]|] eqn:E; try discriminate.
  rewrite (lit_match_uncased flags_i 58 c eq_refl) in H.
  destruct (N.eqb_spec c 58) as [->|]; [|discriminate].
  injection H as ->.
  destruct (lits_match_split _ _ _ _ E) as (pre & -> & _ & Hpre).
  rewrite rstrip_app by reflexivity.
  rewrite lits_match_snoc, Hpre. reflexivity.
Qed.

Lemma t_not_space c : lit_match flags_i 116 c = true -> isspace c = false.
Proof. char_cases. Qed.

Lemma r_not_space c : lit_match flags_i 114 c = true -> isspace c = false.
Proof. char_cases. Qed.

Lemma a_not_space c : lit_match flags_i 97 c = true -> isspace c = false.
Proof. char_cases. Qed.

Lemma thoughts_marker_strip t :
  thoughts_marker (strip t) = None -> thoughts_marker t = None.
Proof.
  unfold thoughts_marker, ci_starts. intros H.
  destruct (lits_match flags_i (lit "thoughts:") t) as [r|] eqn:E1.
  - apply (marker_strip 116 (lit "hought" ++ [115%N]) t r t_not_space) in E1.
    change ((116%N :: lit "hought" ++ [115%N]) ++ [58%N]) with (lit "thoughts:") in E1.
    rewrite E1 in H. discriminate.
  - destruct (lits_match flags_i (lit "thought:") t) as [r|] eqn:E2;
      [|reflexivity].
    apply (marker_strip 116 (lit "hought") t r t_not_space) in E2.
    change ((116%N :: lit "hought") ++ [58%N]) with (lit "thought:") in E2.
    rewrite E2 in H.
    destruct (lits_match flags_i (lit "thoughts:") (strip t)); discriminate.
Qed.

Lemma is_Some_false {A} (o : option A) :
  bool_decide (is_Some o) = false -> o = None.
Proof.
  destruct o; [|reflexivity]. intros H.
  apply bool_decide_eq_false in H. destruct H. eexists. reflexivity.
Qed.

Lemma line_marker_false t :
  line_marker t = false ->
  thoughts_marker t = None /\ reasoning_marker t = None
  /\ analysis_marker t = None.
Proof.
  unfold line_marker. intros H.
  apply orb_false_iff in H as [H H3]. apply orb_false_iff in H as [H1 H2].
  repeat split; apply is_Some_false; assumption.
Qed.

(** A text that, once stripped, starts with no line marker and holds no
    labelled block is only stripped. *)
Lemma sanitize_unmarked t :
  line_marker (strip t) = false ->
  search flags_is pat_fence (strip t) = false ->
  _sanitize_answer t = strip t.
Proof.
  intros Hl Hf. apply line_marker_false in Hl as (H1 & H2 & H3).
  rewrite sanitize_unfold.
  rewrite sub_thoughts, (thoughts_marker_strip t H1).
  rewrite sub_reasoning, H2, strip_strip.
  rewrite sub_analysis, H3, strip_strip.
  rewrite (sub_not_found _ _ _ Hf). apply strip_strip.
Qed.

Lemma sanitize_stripped t : stripped (_sanitize_answer t) = true.
Proof. rewrite sanitize_unfold. apply stripped_strip. Qed.

(** *** The loop over any list of patterns *)

Lemma step_length y p : length (step y p) <= length y.
Proof.
  unfold step. etransitivity; [apply strip_length | apply sub_length].
Qed.

Lemma fold_step_length ps : forall y,
  length (fold_left step ps y) <= length y.
Proof.
  induction ps as [|p ps IH]; intros y; cbn [fold_left]; [lia|].
  etransitivity; [apply IH | apply step_length].
Qed.

Lemma fold_step_fixed ps : forall y,
  stripped y = true -> existsb (finds y) ps = false ->
  fold_left step ps y = y.
Proof.
  induction ps as [|p ps IH]; intros y Hs Hn; cbn [fold_left]; [reflexivity|].
  cbn [existsb] in Hn. apply orb_false_iff in Hn as [Hp Hn].
  unfold step at 2. rewrite (sub_not_found _ _ _ Hp), (strip_id _ Hs).
  apply IH; assumption.
Qed.

Lemma fold_step_shrinks ps : forall y,
  stripped y = true -> existsb (finds y) ps = true ->
  length (fold_left step ps y) < length y.
Proof.
  induction ps as [|p ps IH]; intros y Hs Hn; cbn [fold_left existsb] in *;
    [discriminate|].
  destruct (finds y p) eqn:Hp.
  - eapply Nat.le_lt_trans; [apply fold_step_length|].
    unfold step. eapply Nat.le_lt_trans; [apply strip_length|].
    apply sub_found. exact Hp.
  - cbn [orb] in Hn. unfold step at 2.
    rewrite (sub_not_found _ _ _ Hp), (strip_id _ Hs).
    apply IH; assumption.
Qed.

(** The texts the sanitizer leaves as they are. *)
Lemma sanitize_fixpoint y :
  _sanitize_answer y = y
  <-> stripped y = true /\ existsb (finds y) patterns = false.
Proof.
  split.
  - intros H. assert (Hs : stripped y = true).
    { rewrite <- H. apply sanitize_stripped. }
    split; [exact Hs|].
    destruct (existsb (finds y) patterns) eqn:E; [|reflexivity].
    pose proof (fold_step_shrinks patterns y Hs E) as Hlt.
    unfold _sanitize_answer in H. rewrite H in Hlt. lia.
  - intros [Hs Hn]. apply fold_step_fixed; assumption.
Qed.


(** *** Markers are found again in a longer text *)

Lemma lits_match_mono f ps : forall v r b,
  lits_match f ps v = Some r -> lits_match f ps (v ++ b) = Some (r ++ b).
Proof.
  induction ps as [|q ps IH]; intros v r b; cbn [lits_match].
  - intros [= ->]. reflexivity.
  - destruct v as [|c v]; [discriminate|]. cbn [app].
    destruct (lit_match f q c); [apply IH | discriminate].
Qed.

Lemma skip_sep_app r b : r <> [] -> skip_sep (r ++ b) = skip_sep r ++ b.
Proof.
  destruct r as [|c r]; [congruence|]. intros _. cbn [app skip_sep].
  destruct ((c =? 45) || (c =? 32))%N; reflexivity.
Qed.

Lemma lits_match_nonempty f q ps v r :
  lits_match f (q :: ps) v = Some r -> v <> [].
Proof. destruct v; [discriminate | congruence]. Qed.

Lemma skip_sep_nonempty r : skip_sep r <> [] -> r <> [].
Proof. destruct r; [intros H; exact H | congruence]. Qed.

Lemma label_rest_mono v r b :
  label_rest v = Some r -> is_Some (label_rest (v ++ b)).
Proof.
  unfold label_rest, ci_starts.
  destruct (lits_match flags_i (lit "thought") v) as [r0|] eqn:E0.
  - intros _. rewrite (lits_match_mono _ _ _ _ b E0). eexists. reflexivity.
  - destruct (lits_match flags_i (lit "chain") v) as [r1|] eqn:E1.
    + destruct (lits_match flags_i (lit "of") (skip_sep r1)) as [r2|] eqn:E2;
        [|discriminate].
      intros E3.
      destruct (lits_match_first _ _ _ _ _ E1) as (c & v' & -> & Hc).
      change (lit_match flags_i 99 c = true) in Hc.
      assert (Et : lits_match flags_i (lit "thought") ((c :: v') ++ b) = None).
      { cbn [app lit list_ascii_of_string map lits_match].
        change (N_of_ascii "t") with 116%N.
        destruct (lit_match flags_i 116 c) eqn:Ht; [|reflexivity].
        rewrite (lit_match_t_c c Ht) in Hc. discriminate. }
      rewrite Et, (lits_match_mono _ _ _ _ b E1).
      rewrite skip_sep_app
        by (apply skip_sep_nonempty; eapply lits_match_nonempty; exact E2).
      rewrite (lits_match_mono _ _ _ _ b E2).
      rewrite skip_sep_app
        by (apply skip_sep_nonempty; eapply lits_match_nonempty; exact E3).
      rewrite (lits_match_mono _ _ _ _ b E3). eexists. reflexivity.
    + intros Ea.
      destruct (lits_match_first _ _ _ _ _ Ea) as (c & v' & -> & Hc).
      change (lit_match flags_i 97 c = true) in Hc.
      assert (Et : lits_match flags_i (lit "thought") ((c :: v') ++ b) = None).
      { cbn [app lit list_ascii_of_string map lits_match].
        change (N_of_ascii "t") with 116%N.
        destruct (lit_match flags_i 116 c) eqn:Ht; [|reflexivity].
        rewrite (lit_match_t_a c Ht) in Hc. discriminate. }
      assert (Ec : lits_match flags_i (lit "chain") ((c :: v') ++ b) = None).
      { cbn [app lit list_ascii_of_string map lits_match].
        change (N_of_ascii "c") with 99%N.
        destruct (lit_match flags_i 99 c) eqn:Ht; [|reflexivity].
        rewrite (lit_match_c_a c Ht) in Hc. discriminate. }
      rewrite Et, Ec, (lits_match_mono _ _ _ _ b Ea). eexists. reflexivity.
Qed.

Lemma fence_open_mono v b :
  bool_decide (is_Some (fence_open v)) = true ->
  bool_decide (is_Some (fence_open (v ++ b))) = true.
Proof.
  intros H. apply bool_decide_eq_true in H as [r H].
  apply bool_decide_eq_true. revert H. unfold fence_open, ci_starts.
  destruct (lits_match flags_i (lit "```") v) as [r0|] eqn:E0; [|discriminate].
  rewrite (lits_match_mono _ _ _ _ b E0). apply label_rest_mono.
Qed.

Lemma is_Some_mono {A} (o o' : option A) :
  (forall r, o = Some r -> is_Some o') ->
  bool_decide (is_Some o) = true -> bool_decide (is_Some o') = true.
Proof.
  intros H Ho. apply bool_decide_eq_true in Ho as [r Ho].
  apply bool_decide_eq_true. exact (H r Ho).
Qed.

Lemma ci_starts_mono s v b r :
  ci_starts s v = Some r -> is_Some (ci_starts s (v ++ b)).
Proof.
  unfold ci_starts. intros H. rewrite (lits_match_mono _ _ _ _ b H).
  eexists. reflexivity.
Qed.

Lemma line_marker_mono v b :
  line_marker v = true -> line_marker (v ++ b) = true.
Proof.
  unfold line_marker. intros H.
  apply orb_true_iff in H as [H|H]; [apply orb_true_iff in H as [H|H]|].
  - apply orb_true_iff. left. apply orb_true_iff. left.
    revert H. apply is_Some_mono. unfold thoughts_marker. intros r.
    destruct (ci_starts "thoughts:" v) as [r1|] eqn:E1.
    + intros _. destruct (ci_starts_mono _ _ b _ E1) as [x ->].
      eexists. reflexivity.
    + intros E2. destruct (ci_starts "thoughts:" (v ++ b));
        [eexists; reflexivity|]. exact (ci_starts_mono _ _ b _ E2).
  - apply orb_true_iff. left. apply orb_true_iff. right.
    revert H. apply is_Some_mono. intros r. apply ci_starts_mono.
  - apply orb_true_iff. right.
    revert H. apply is_Some_mono. intros r. apply ci_starts_mono.
Qed.

Lemma anywhere_app (P : pystr -> bool) b :
  (forall v, P v = true -> P (v ++ b) = true) ->
  forall u, anywhere P (u ++ b) = false -> anywhere P u = false.
Proof.
  intros HP u. induction u as [|c u IH]; cbn [app].
  - intros H. cbn [anywhere]. rewrite orb_false_r.
    destruct (P []) eqn:E; [|reflexivity].
    apply HP in E. cbn [app] in E.
    destruct b; cbn [anywhere] in H; rewrite E in H; discriminate.
  - cbn [anywhere]. intros H. apply orb_false_iff in H as [H1 H2].
    destruct (P (c :: u)) eqn:E.
    + apply HP in E. cbn [app] in E. rewrite E in H1. discriminate.
    + apply IH. exact H2.
Qed.

Lemma anywhere_suffix (P : pystr -> bool) a : forall u,
  anywhere P (a ++ u) = false -> anywhere P u = false.
Proof.
  induction a as [|c a IH]; intros u; cbn [app]; [intros H; exact H|].
  cbn [anywhere]. intros H. apply orb_false_iff in H as [_ H]. apply IH, H.
Qed.

Lemma lstrip_suffix t : exists a, t = a ++ lstrip t.
Proof.
  induction t as [|c t [a IH]]; cbn [lstrip].
  - exists []. reflexivity.
  - destruct (isspace c).
    + exists (c :: a). cbn [app]. rewrite <- IH. reflexivity.
    + exists []. reflexivity.
Qed.

Lemma rstrip_prefix t : exists b, t = rstrip t ++ b.
Proof.
  unfold rstrip. destruct (lstrip_suffix (rev t)) as [a Ha].
  exists (rev a). rewrite <- rev_app_distr, <- Ha. symmetry. apply rev_involutive.
Qed.

Lemma strip_middle t : exists a b, t = a ++ strip t ++ b.
Proof.
  destruct (lstrip_suffix t) as [a Ha].
  destruct (rstrip_prefix (lstrip t)) as [b Hb].
  exists a, b. unfold strip. rewrite <- Hb. exact Ha.
Qed.

Lemma has_marker_strip t : has_marker t = false -> has_marker (strip t) = false.
Proof.
  unfold has_marker. destruct (strip_middle t) as (a & b & E).
  intros H. rewrite E in H. apply anywhere_suffix in H.
  revert H. apply anywhere_app. intros v Hv.
  apply orb_true_iff in Hv as [Hv|Hv]; apply orb_true_iff.
  - left. apply line_marker_mono. exact Hv.
  - right. apply fence_open_mono. exact Hv.
Qed.

Lemma has_marker_false t :
  has_marker t = false -> line_marker t = false /\ has_fence_open t = false.
Proof.
  unfold has_marker, has_fence_open. intros H. split.
  - destruct t; cbn [anywhere] in H; apply orb_false_iff in H as [H _];
      apply orb_false_iff in H as [H _]; exact H.
  - revert H. apply anywhere_false_impl. intros u Hu.
    apply orb_false_iff in Hu as [_ Hu]. exact Hu.
Qed.

(** A text that holds no marker at all is only stripped. *)
Lemma sanitize_marker_free t :
  has_marker t = false -> _sanitize_answer t = strip t.
Proof.
  intros H. apply has_marker_strip, has_marker_false in H as [Hl Hf].
  apply sanitize_unmarked; [exact Hl | apply search_fence_open, Hf].
Qed.

End PatternFacts.

(** ** Facts about the provider client *)

Module ClientFacts.
Import Assistant GroqClient.

Lemma send_bounds c calls m prompt : forall retries_left n,
  S n <= snd (send c calls m prompt retries_left n) <= S (n + retries_left).
Proof.
  induction retries_left as [|k IH]; intros n; cbn [send].
  - destruct (post c calls n m prompt); cbn [snd]; lia.
  - destruct (post c calls n m prompt) as [f|e]; cbn [snd]; [lia|].
    destruct (should_retry c e); cbn [snd]; [|lia].
    specialize (IH (S n)). lia.
Qed.

(** An outcome that the client would retry means no retry was left. *)
Lemma send_exhausted c calls m prompt e : forall retries_left n,
  fst (send c calls m prompt retries_left n) = Raise e ->
  should_retry c e = true ->
  snd (send c calls m prompt retries_left n) = S (n + retries_left).
Proof.
  induction retries_left as [|k IH]; intros n; cbn [send].
  - destruct (post c calls n m prompt); cbn [fst snd]; [discriminate|].
    intros _ _. lia.
  - destruct (post c calls n m prompt) as [f|e'] eqn:E; cbn [fst snd];
      [discriminate|].
    destruct (should_retry c e') eqn:Er.
    + intros H Hr. rewrite (IH (S n) H Hr). lia.
    + cbn [fst snd]. intros [= ->] Hr. congruence.
Qed.

End ClientFacts.

(** ** Facts about [ask] and [reset_session] *)

Module AskFacts.
Import Assistant.

Section WithBackend.
Context {B : Backend}.
Implicit Types (self : StudyAssistant B) (message session_id style : pystr).

Lemma get_or_create_run self session_id :
  _get_or_create_history session_id self
  = (Ok (history self session_id), opened self session_id).
Proof.
  unfold _get_or_create_history, opened, history.
  destruct (_message_store self !! session_id) as [h|] eqn:E; cbn [default].
  - rewrite insert_id by exact E. destruct self; reflexivity.
  - reflexivity.
Qed.

Lemma history_opened self session_id sid' :
  history (opened self session_id) sid' = history self sid'.
Proof.
  unfold history, opened. cbn [_message_store set_message_store].
  destruct (decide (session_id = sid')) as [->|Hne].
  - rewrite lookup_insert_eq. reflexivity.
  - rewrite lookup_insert_ne by exact Hne. reflexivity.
Qed.

Lemma history_log_call self c sid' :
  history (log_call c self) sid' = history self sid'.
Proof. reflexivity. Qed.

(** One run of a history-wrapped chain. *)
Lemma with_history_run m message notes style session_id self :
  let prompt := _prompt {| pi_input := message; pi_notes := notes;
                           pi_style := style;
                           pi_chat_history := history self session_id |} in
  _with_history m message notes style session_id self
  = match structured_result (llm_calls self) m prompt with
    | Ok resp =>
        (Ok (to_history_and_result resp),
         recorded self session_id m prompt
           [HumanMessage message; AIMessage (answer resp)])
    | Raise e => (Raise e, log_call (m, prompt) (opened self session_id))
    end.
Proof.
  intros prompt. unfold _with_history, bind.
  rewrite get_or_create_run.
  unfold _chain, bind, structured_llm, ret, add_messages.
  cbn [llm_calls opened set_message_store]. fold prompt.
  destruct (structured_result (llm_calls self) m prompt) as [resp|e];
    [|reflexivity].
  unfold recorded, log_call, set_message_store.
  cbn [_message_store _vectorstore llm_calls to_history_and_result ai_message].
  f_equal. f_equal.
  apply map_eq. intros k. destruct (decide (session_id = k)) as [->|Hne].
  - rewrite lookup_alter_eq. unfold opened. cbn [_message_store set_message_store].
    rewrite !lookup_insert_eq. reflexivity.
  - rewrite lookup_alter_ne by exact Hne. unfold opened.
    cbn [_message_store set_message_store].
    rewrite !lookup_insert_ne by exact Hne. reflexivity.
Qed.

Lemma history_recorded self session_id m prompt msgs :
  history (recorded self session_id m prompt msgs) session_id
  = history self session_id ++ msgs.
Proof.
  unfold history, recorded. cbn [_message_store set_message_store].
  rewrite lookup_insert_eq. reflexivity.
Qed.

Lemma opened_again self session_id c :
  opened (log_call c (opened self session_id)) session_id
  = log_call c (opened self session_id).
Proof.
  unfold opened at 1. rewrite history_log_call, history_opened.
  unfold opened, log_call, set_message_store.
  cbn [_message_store _vectorstore llm_calls].
  rewrite insert_insert_eq. reflexivity.
Qed.

(** [ask], case by case. *)
Lemma ask_run message session_id style self :
  ask message session_id style self
  = match retriever_invoke (_vectorstore self) message 4 with
    | Raise e => (Raise e, self)
    | Ok docs =>
        let prompt :=
          ask_prompt self message session_id style (notes_text docs) in
        let self1 := log_call (json_mode, prompt) (opened self session_id) in
        match structured_result (llm_calls self) json_mode prompt with
        | Ok resp =>
            finish (_vectorstore self) message resp
              (recorded self session_id json_mode prompt
                 (exchange message resp))
        | Raise e =>
            if handled e then
              match structured_result (llm_calls self ++ [(json_mode, prompt)])
                      json_schema prompt with
              | Ok resp =>
                  finish (_vectorstore self) message resp
                    (recorded self1 session_id json_schema prompt
                       (exchange message resp))
              | Raise e2 => (Raise e2, log_call (json_schema, prompt) self1)
              end
            else (Raise e, self1)
        end
    end.
Proof.
  unfold ask, bind at 1, _retrieve_notes.
  destruct (retriever_invoke (_vectorstore self) message 4) as [docs|e];
    [|reflexivity].
  cbn zeta. unfold bind at 1, try_except.
  rewrite with_history_run. unfold ask_prompt.
  set (prompt := _prompt _).
  destruct (structured_result (llm_calls self) json_mode prompt) as [resp|e].
  - unfold bind, _save_note, ret, finish, memory_source, exchange.
    cbn [_vectorstore recorded set_message_store log_call chain_result
         to_history_and_result].
    destruct (add_texts _ _ _); reflexivity.
  - destruct (handled e); [|reflexivity].
    rewrite with_history_run, history_log_call, history_opened.
    fold prompt. cbn [llm_calls log_call opened set_message_store].
    destruct (structured_result (llm_calls self ++ [(json_mode, prompt)])
                json_schema prompt) as [resp|e2];
      [|rewrite opened_again; reflexivity].
    unfold bind, _save_note, ret, finish, memory_source, exchange.
    cbn [_vectorstore recorded set_message_store log_call chain_result
         to_history_and_result].
    destruct (add_texts _ _ _); reflexivity.
Qed.

Lemma finish_vectorstore_raise (vs : VectorStore) message resp self' e self2 :
  finish vs message resp self' = (Raise e, self2) ->
  self2 = self'
  /\ add_texts vs
       [note_text message (set_answer (_sanitize_answer (answer resp)) resp)]
       (note_metadatas memory_source) = Raise e.
Proof.
  unfold finish. cbn zeta.
  destruct (add_texts vs _ _) as [vs'|e']; [discriminate|].
  intros [= -> ->]. split; reflexivity.
Qed.

Lemma finish_ok (vs : VectorStore) message resp self' r self2 :
  finish vs message resp self' = (Ok r, self2) ->
  r = set_answer (_sanitize_answer (answer resp)) resp
  /\ exists vs', add_texts vs [note_text message r]
                   (note_metadatas memory_source) = Ok vs'
                 /\ self2 = set_vectorstore vs' self'.
Proof.
  unfold finish. cbn zeta.
  destruct (add_texts vs _ _) as [vs'|e'] eqn:E; [|discriminate].
  intros [= <- <-]. split; [reflexivity|].
  exists vs'. split; [exact E | reflexivity].
Qed.

(** What [ask] leaves behind, by outcome. *)
Lemma ask_outcomes message session_id style self :
  match ask message session_id style self with
  | (Ok r, self') =>
      (exists resp,
          r = set_answer (_sanitize_answer (answer resp)) resp
          /\ history self' session_id
             = history self session_id ++ exchange message resp)
      /\ add_texts (_vectorstore self) [note_text message r]
           (note_metadatas memory_source) = Ok (_vectorstore self')
  | (Raise e, self') =>
      _vectorstore self' = _vectorstore self
      /\ (history self' session_id = history self session_id
          \/ exists resp,
               history self' session_id
               = history self session_id ++ exchange message resp
               /\ add_texts (_vectorstore self)
                    [note_text message
                       (set_answer (_sanitize_answer (answer resp)) resp)]
                    (note_metadatas memory_source) = Raise e)
  end.
Proof.
  rewrite ask_run.
  destruct (retriever_invoke (_vectorstore self) message 4) as [docs|e].
  2:{ split; [reflexivity | left; reflexivity]. }
  cbn zeta. set (prompt := ask_prompt _ _ _ _ _).
  assert (Hfin : forall resp (self1 : StudyAssistant B) m,
             _vectorstore self1 = _vectorstore self ->
             history self1 session_id = history self session_id ->
             match finish (_vectorstore self) message resp
                     (recorded self1 session_id m prompt (exchange message resp))
             with
             | (Ok r, self') =>
                 (exists resp,
                     r = set_answer (_sanitize_answer (answer resp)) resp
                     /\ history self' session_id
                        = history self session_id ++ exchange message resp)
                 /\ add_texts (_vectorstore self) [note_text message r]
                      (note_metadatas memory_source) = Ok (_vectorstore self')
             | (Raise e, self') =>
                 _vectorstore self' = _vectorstore self
                 /\ (history self' session_id = history self session_id
                     \/ exists resp,
                          history self' session_id
                          = history self session_id ++ exchange message resp
                          /\ add_texts (_vectorstore self)
                               [note_text message
                                  (set_answer (_sanitize_answer (answer resp)) resp)]
                               (note_metadatas memory_source) = Raise e)
             end).
  { intros resp self1 m Hvs Hh.
    destruct (finish _ _ _ _) as [[r|e] self'] eqn:E.
    - apply finish_ok in E as (-> & vs' & Hadd & ->).
      split.
      + exists resp. split; [reflexivity|].
        change (history (set_vectorstore vs' ?s) session_id)
          with (history s session_id).
        rewrite history_recorded, Hh. reflexivity.
      + exact Hadd.
    - apply finish_vectorstore_raise in E as [-> Hadd].
      split; [exact Hvs|]. right. exists resp.
      rewrite history_recorded, Hh. split; [reflexivity | exact Hadd]. }
  destruct (structured_result (llm_calls self) json_mode prompt) as [resp|e].
  - apply Hfin; reflexivity.
  - destruct (handled e).
    + destruct (structured_result _ json_schema prompt) as [resp|e2].
      * apply Hfin; [reflexivity|].
        rewrite history_log_call, history_opened. reflexivity.
      * split; [reflexivity|]. left.
        rewrite !history_log_call, history_opened. reflexivity.
    + split; [reflexivity|]. left.
      rewrite history_log_call, history_opened. reflexivity.
Qed.

(** A successful call has appended the exchange and written the note. *)
Lemma ask_ok message session_id style self r self' :
  ask message session_id style self = (Ok r, self') ->
  (exists resp,
      r = set_answer (_sanitize_answer (answer resp)) resp
      /\ history self' session_id
         = history self session_id ++ exchange message resp)
  /\ add_texts (_vectorstore self) [note_text message r]
       (note_metadatas memory_source) = Ok (_vectorstore self').
Proof.
  intros H. pose proof (ask_outcomes message session_id style self) as Ho.
  rewrite H in Ho. exact Ho.
Qed.

(** A call that raises has written no note; it has appended the exchange
    only when the note write is what raised. *)
Lemma ask_raise message session_id style self e self' :
  ask message session_id style self = (Raise e, self') ->
  _vectorstore self' = _vectorstore self
  /\ (history self' session_id = history self session_id
      \/ exists resp,
           history self' session_id
           = history self session_id ++ exchange message resp
           /\ add_texts (_vectorstore self)
                [note_text message
                   (set_answer (_sanitize_answer (answer resp)) resp)]
                (note_metadatas memory_source) = Raise e).
Proof.
  intros H. pose proof (ask_outcomes message session_id style self) as Ho.
  rewrite H in Ho. exact Ho.
Qed.

Lemma posts_bounds (c : GroqClient.client) calls m prompt :
  1 <= GroqClient.posts c calls m prompt <= S (GroqClient.max_retries c).
Proof.
  unfold GroqClient.posts.
  pose proof (ClientFacts.send_bounds c calls m prompt
                (GroqClient.max_retries c) 0). lia.
Qed.

Lemma posts_exhausted (c : GroqClient.client) calls m prompt e :
  GroqClient.client_complete c calls m prompt = Raise e ->
  GroqClient.should_retry c e = true ->
  GroqClient.posts c calls m prompt = S (GroqClient.max_retries c).
Proof.
  unfold GroqClient.client_complete, GroqClient.posts. intros H Hr.
  rewrite (ClientFacts.send_exhausted c calls m prompt e _ _ H Hr).
  reflexivity.
Qed.

Lemma handled_shape_rejection e : handled e = shape_rejection e.
Proof. destruct e; reflexivity. Qed.

(** A completion that came back validated is the reply of one invocation,
    the primary one or the secondary one after it. *)
Lemma completed_fields message session_id style self docs resp :
  completed self message session_id style docs = Ok resp ->
  let prompt := ask_prompt self message session_id style (notes_text docs) in
  exists calls m f,
    complete calls m prompt = Ok f
    /\ model_validate f = Ok resp
    /\ f_answer f = Some (answer resp)
    /\ ((m = json_mode /\ calls = llm_calls self)
        \/ (m = json_schema
            /\ calls = llm_calls self ++ [(json_mode, prompt)])).
Proof.
  unfold completed. cbn zeta. set (prompt := ask_prompt _ _ _ _ _).
  assert (Hv : forall calls m,
             structured_result calls m prompt = Ok resp ->
             exists f, complete calls m prompt = Ok f
                       /\ model_validate f = Ok resp
                       /\ f_answer f = Some (answer resp)).
  { intros calls m. unfold structured_result.
    destruct (complete calls m prompt) as [f|]; [|discriminate].
    intros Hf. exists f. split; [reflexivity|]. split; [exact Hf|].
    revert Hf. unfold model_validate.
    destruct (f_answer f) as [a|]; [|discriminate].
    intros [= <-]. reflexivity. }
  destruct (structured_result (llm_calls self) json_mode prompt)
    as [resp1|e] eqn:E1.
  - intros [= ->]. destruct (Hv _ _ E1) as (f & Hc & Hm & Ha).
    exists (llm_calls self), json_mode, f.
    repeat split; try assumption. left. split; reflexivity.
  - destruct (shape_rejection e); [|discriminate].
    intros E2. destruct (Hv _ _ E2) as (f & Hc & Hm & Ha).
    exists (llm_calls self ++ [(json_mode, prompt)]), json_schema, f.
    repeat split; try assumption. right. split; reflexivity.
Qed.

(** A successful call, tied to the completion it came from. *)
Lemma ask_ok_completed message session_id style self r self' :
  ask message session_id style self = (Ok r, self') ->
  exists docs resp,
    retriever_invoke (_vectorstore self) message 4 = Ok docs
    /\ completed self message session_id style docs = Ok resp
    /\ r = set_answer (_sanitize_answer (answer resp)) resp
    /\ history self' session_id
       = history self session_id ++ exchange message resp
    /\ add_texts (_vectorstore self) [note_text message r]
         (note_metadatas memory_source) = Ok (_vectorstore self').
Proof.
  rewrite ask_run.
  destruct (retriever_invoke (_vectorstore self) message 4) as [docs|e];
    [|discriminate].
  cbn zeta. set (prompt := ask_prompt _ _ _ _ _).
  assert (Hfin : forall resp (self1 : StudyAssistant B) m,
             history self1 session_id = history self session_id ->
             finish (_vectorstore self) message resp
               (recorded self1 session_id m prompt (exchange message resp))
             = (Ok r, self') ->
             r = set_answer (_sanitize_answer (answer resp)) resp
             /\ history self' session_id
                = history self session_id ++ exchange message resp
             /\ add_texts (_vectorstore self) [note_text message r]
                  (note_metadatas memory_source) = Ok (_vectorstore self')).
  { intros resp self1 m Hh Hf.
    apply finish_ok in Hf as (-> & vs' & Hadd & ->).
    split; [reflexivity|]. split; [|exact Hadd].
    change (history (set_vectorstore vs' ?s) session_id)
      with (history s session_id).
    rewrite history_recorded, Hh. reflexivity. }
  destruct (structured_result (llm_calls self) json_mode prompt)
    as [resp|e] eqn:E1.
  - intros Hf. exists docs, resp. split; [reflexivity|].
    split; [unfold completed; cbn zeta; fold prompt; rewrite E1; reflexivity|].
    apply (Hfin resp self json_mode eq_refl Hf).
  - destruct (handled e) eqn:Eh; [|discriminate].
    destruct (structured_result _ json_schema prompt) as [resp|e2] eqn:E2;
      [|discriminate].
    intros Hf. exists docs, resp. split; [reflexivity|].
    split; [unfold completed; cbn zeta; fold prompt;
            rewrite E1, <- handled_shape_rejection, Eh; exact E2|].
    refine (Hfin resp _ json_schema _ Hf).
    rewrite history_log_call, history_opened. reflexivity.
Qed.

End WithBackend.

End AskFacts.

(** ** The answer sanitizer: the claims *)

Section SanitizerClaims.
Import Re StripFacts ReFacts PatternFacts.

(** A marker line that is not the first line of the text is kept: the
    patterns are anchored with [^] and no MULTILINE flag, so they can match
    at index 0 only. *)
Lemma later_marker_line_kept :
  _sanitize_answer (lit "Hello" ++ nl ++ lit "Reasoning: x")
  = lit "Hello" ++ nl ++ lit "Reasoning: x"
  /\ has_marker_line
       (_sanitize_answer (lit "Hello" ++ nl ++ lit "Reasoning: x")) = true.
Proof. split; vm_compute; reflexivity. Qed.

(** C1, as amended. The sanitizer is four passes, each followed by [strip].
    The first three remove, without regard to case, a ["Thought:"] or
    ["Thoughts:"], a ["Reasoning:"] and an ["Analysis:"] marker together
    with the rest of its line, when the marker stands at the very start of
    the text of that pass, and leave any other text as it is. The fourth
    scans from the left: the text before the first labelled fenced block is
    copied, the block goes through its closing fence, and the scan goes on
    after it. A text whose stripped form starts with no marker and holds no
    opening labelled fence is returned stripped, so the marker words inside
    a sentence are never removed. The two examples of the specification
    hold. *)
Theorem sanitize_anchored_passes (t pre u post : pystr) :
  _sanitize_answer t
  = strip (sub flags_is pat_fence
      (strip (sub flags_i pat_analysis
         (strip (sub flags_i pat_reasoning
            (strip (sub flags_i pat_thoughts t)))))))
  /\ sub flags_i pat_thoughts t
     = match thoughts_marker t with
       | Some rest => after_line rest
       | None => t
       end
  /\ sub flags_i pat_reasoning t
     = match reasoning_marker t with
       | Some rest => after_line rest
       | None => t
       end
  /\ sub flags_i pat_analysis t
     = match analysis_marker t with
       | Some rest => after_line rest
       | None => t
       end
  /\ ((forall i, i < length pre -> fence_block (drop i (pre ++ u)) = None) ->
      fence_block u = Some post ->
      sub flags_is pat_fence (pre ++ u) = pre ++ sub flags_is pat_fence post)
  /\ (line_marker (strip t) = false ->
      has_fence_open (strip t) = false ->
      _sanitize_answer t = strip t)
  /\ _sanitize_answer (lit "My reasoning skills are great.")
     = lit "My reasoning skills are great."
  /\ _sanitize_answer
       (lit "Reasoning: the sky is blue" ++ nl ++ lit "Final answer here")
     = lit "Final answer here".
Proof.
  split; [apply sanitize_unfold|].
  split; [apply sub_thoughts|].
  split; [apply sub_reasoning|].
  split; [apply sub_analysis|].
  split; [apply sub_fence_first|].
  split.
  - intros Hl Hf. apply sanitize_unmarked; [exact Hl|].
    apply search_fence_open. exact Hf.
  - split; vm_compute; reflexivity.
Qed.

Lemma sanitize_anchored_passes_witness :
  sub flags_is pat_fence (lit "see " ++ lit "```Analysis: x``` done")
  = lit "see " ++ sub flags_is pat_fence (lit " done")
  /\ _sanitize_answer (lit " My thoughts: reasoning and analysis. ")
     = strip (lit " My thoughts: reasoning and analysis. ").
Proof.
  pose proof (sanitize_anchored_passes
                (lit " My thoughts: reasoning and analysis. ")
                (lit "see ") (lit "```Analysis: x``` done") (lit " done"))
    as (_ & _ & _ & _ & Hfence & Hplain & _).
  split.
  - apply Hfence.
    + intros i Hi.
      destruct i as [|[|[|[|i]]]]; try reflexivity.
      cbn in Hi. lia.
    + reflexivity.
  - apply Hplain; reflexivity.
Defined.

(** A second pass can remove more: after the first ["Thoughts:"] line has
    gone, the next one stands at the start of the text. *)
Lemma sanitize_not_idempotent :
  _sanitize_answer
    (_sanitize_answer (lit "Thoughts: a" ++ nl ++ lit "Thoughts: b"))
  <> _sanitize_answer (lit "Thoughts: a" ++ nl ++ lit "Thoughts: b").
Proof. vm_compute. discriminate. Qed.

(** C2, as amended. Sanitizing twice gives the same text as sanitizing once
    exactly when no pattern of the sanitizer matches any more in the text
    that the first run returns. *)
Theorem sanitize_twice_iff_clean (x : pystr) :
  _sanitize_answer (_sanitize_answer x) = _sanitize_answer x
  <-> leftover (_sanitize_answer x) = false.
Proof.
  rewrite sanitize_fixpoint. unfold leftover. split.
  - intros [_ H]. exact H.
  - intros H. split; [apply sanitize_stripped | exact H].
Qed.

Lemma sanitize_twice_iff_clean_witness :
  _sanitize_answer
    (_sanitize_answer
       (lit "Reasoning: the sky is blue" ++ nl ++ lit "Final answer here"))
  = _sanitize_answer
      (lit "Reasoning: the sky is blue" ++ nl ++ lit "Final answer here").
Proof.
  apply (proj2 (sanitize_twice_iff_clean
                  (lit "Reasoning: the sky is blue" ++ nl
                   ++ lit "Final answer here"))).
  vm_compute. reflexivity.
Defined.

(** C10. The last thing every pass does is [strip]: a text that holds none
    of the markers comes back stripped, which need not be the text itself,
    and no output has white space at either end. *)
Theorem sanitize_strips_unconditionally (t : pystr) :
  (has_marker t = false -> _sanitize_answer t = strip t)
  /\ stripped (_sanitize_answer t) = true
  /\ _sanitize_answer (lit "  plain text ") = lit "plain text".
Proof.
  split; [apply sanitize_marker_free|].
  split; [apply sanitize_stripped|].
  vm_compute. reflexivity.
Qed.

Lemma sanitize_strips_unconditionally_witness :
  _sanitize_answer (lit " My reasoning skills are great." ++ nl)
  = lit "My reasoning skills are great.".
Proof.
  destruct (sanitize_strips_unconditionally
              (lit " My reasoning skills are great." ++ nl)) as [H _].
  rewrite H; reflexivity.
Defined.

End SanitizerClaims.

(** ** [ask] and [reset_session]: the claims *)

Section AskClaims.
Import Assistant AskFacts Scenario.
Context {B : Backend}.
Implicit Types (self : StudyAssistant B) (message session_id style : pystr).

(** C3, as amended. When retrieval raises, nothing has happened. When the
    completion step fails, both attempts or the only one made, the caller
    gets its exception, the session's messages are as they were and the
    note store is as it was. When the completion step succeeds the
    exchange is appended to the session's messages, and it stays there
    whatever the note write does: if the write succeeds the caller gets
    the response and the store holds the note; if the write raises the
    caller gets that exception and the store is as it was. There is no
    rollback. *)
Theorem ask_record_outcomes message session_id style self :
  match retriever_invoke (_vectorstore self) message 4 with
  | Raise e => ask message session_id style self = (Raise e, self)
  | Ok docs =>
      let outcome := ask message session_id style self in
      match completed self message session_id style docs with
      | Raise e =>
          fst outcome = Raise e
          /\ history (snd outcome) session_id = history self session_id
          /\ _vectorstore (snd outcome) = _vectorstore self
      | Ok resp =>
          let r := set_answer (_sanitize_answer (answer resp)) resp in
          history (snd outcome) session_id
          = history self session_id ++ exchange message resp
          /\ match add_texts (_vectorstore self) [note_text message r]
                     (note_metadatas memory_source) with
             | Ok vs' =>
                 fst outcome = Ok r /\ _vectorstore (snd outcome) = vs'
             | Raise e =>
                 fst outcome = Raise e
                 /\ _vectorstore (snd outcome) = _vectorstore self
             end
      end
  end.
Proof.
  rewrite ask_run. unfold completed.
  destruct (retriever_invoke (_vectorstore self) message 4) as [docs|e];
    [|reflexivity].
  cbn zeta. set (prompt := ask_prompt _ _ _ _ _).
  assert (Hfin : forall resp (self1 : StudyAssistant B) m,
             _vectorstore self1 = _vectorstore self ->
             history self1 session_id = history self session_id ->
             let outcome :=
               finish (_vectorstore self) message resp
                 (recorded self1 session_id m prompt (exchange message resp)) in
             let r := set_answer (_sanitize_answer (answer resp)) resp in
             history (snd outcome) session_id
             = history self session_id ++ exchange message resp
             /\ match add_texts (_vectorstore self) [note_text message r]
                        (note_metadatas memory_source) with
                | Ok vs' =>
                    fst outcome = Ok r /\ _vectorstore (snd outcome) = vs'
                | Raise e =>
                    fst outcome = Raise e
                    /\ _vectorstore (snd outcome) = _vectorstore self
                end).
  { intros resp self1 m Hvs Hh. cbn zeta. unfold finish. cbn zeta.
    destruct (add_texts _ _ _) as [vs'|e]; cbn [fst snd].
    - change (history (set_vectorstore vs' ?s) session_id)
        with (history s session_id).
      rewrite history_recorded, Hh. repeat split.
    - rewrite history_recorded, Hh. repeat split. exact Hvs. }
  destruct (structured_result (llm_calls self) json_mode prompt) as [resp|e].
  - apply (Hfin resp self json_mode); reflexivity.
  - destruct e as [| | |cls]; cbn [handled shape_rejection].
    1-3: destruct (structured_result _ json_schema prompt) as [resp|e2];
      [apply (Hfin resp _ json_schema);
         [reflexivity | rewrite history_log_call, history_opened; reflexivity]
      |cbn [fst snd];
       rewrite !history_log_call, history_opened; repeat split].
    cbn [fst snd]. rewrite history_log_call, history_opened. repeat split.
Qed.

(** C4, as amended. When the primary invocation fails with
    [BadRequestError], [ValueError] or [KeyError], [ask] invokes the
    secondary method exactly once, with the same prompt, and an error of
    that invocation is what the caller gets. When it fails with an error
    of any other class, [ask] invokes nothing more and that error is what
    the caller gets. Below [ask], a client [c] sends each invocation
    between once and [1 + max_retries] times; when the completions go
    through [c] and the primary invocation ends in an error that [c]
    retries, the request has been sent [1 + max_retries] times. *)
Theorem ask_fallback_once message session_id style self docs e
    (c : GroqClient.client) :
  retriever_invoke (_vectorstore self) message 4 = Ok docs ->
  let prompt := ask_prompt self message session_id style (notes_text docs) in
  structured_result (llm_calls self) json_mode prompt = Raise e ->
  let outcome := ask message session_id style self in
  (e = BadRequestError \/ e = ValueError \/ e = KeyError ->
   llm_calls (snd outcome)
   = llm_calls self ++ [(json_mode, prompt); (json_schema, prompt)]
   /\ forall e2,
        structured_result (llm_calls self ++ [(json_mode, prompt)])
          json_schema prompt = Raise e2 ->
        fst outcome = Raise e2)
  /\ (forall cls, e = OtherError cls ->
      llm_calls (snd outcome) = llm_calls self ++ [(json_mode, prompt)]
      /\ fst outcome = Raise e)
  /\ 1 <= GroqClient.posts c (llm_calls self) json_mode prompt
     <= S (GroqClient.max_retries c)
  /\ ((forall calls m p,
         complete calls m p = GroqClient.client_complete c calls m p) ->
      complete (llm_calls self) json_mode prompt = Raise e ->
      GroqClient.should_retry c e = true ->
      GroqClient.posts c (llm_calls self) json_mode prompt
      = S (GroqClient.max_retries c)).
Proof.
  intros Hdocs prompt Hfirst outcome. subst outcome.
  rewrite ask_run, Hdocs. cbn zeta. fold prompt. rewrite Hfirst.
  split; [|split; [|split]].
  - intros He.
    assert (Hh : handled e = true) by (destruct He as [->|[->| ->]]; reflexivity).
    rewrite Hh.
    destruct (structured_result _ json_schema prompt) as [resp|e2].
    + split; [|discriminate].
      unfold finish. cbn zeta. destruct (add_texts _ _ _); cbn;
        rewrite <- app_assoc; reflexivity.
    + split; [cbn; rewrite <- app_assoc; reflexivity|].
      intros e3 [= ->]. reflexivity.
  - intros cls ->. cbn [handled]. split; reflexivity.
  - apply posts_bounds.
  - intros Hvia Hc Hr. rewrite Hvia in Hc.
    exact (posts_exhausted c _ _ _ e Hc Hr).
Qed.

(** C5, as amended. After a successful call the session's messages have
    gained the user message and the answer exactly as the completion gave
    it, that is the [answer] field of the reply of the invocation that
    succeeded; the answer returned to the caller is that text
    sanitized. *)
Theorem ask_history_raw_answer message session_id style self r self' :
  ask message session_id style self = (Ok r, self') ->
  exists docs resp,
    retriever_invoke (_vectorstore self) message 4 = Ok docs
    /\ completed self message session_id style docs = Ok resp
    /\ (exists calls m f,
          complete calls m
            (ask_prompt self message session_id style (notes_text docs))
          = Ok f
          /\ f_answer f = Some (answer resp))
    /\ history self' session_id
       = history self session_id
         ++ [HumanMessage message; AIMessage (answer resp)]
    /\ answer r = _sanitize_answer (answer resp).
Proof.
  intros H.
  destruct (ask_ok_completed _ _ _ _ _ _ H)
    as (docs & resp & Hd & Hc & -> & Hh & _).
  exists docs, resp. split; [exact Hd|]. split; [exact Hc|].
  split; [|split; [exact Hh | reflexivity]].
  destruct (completed_fields _ _ _ _ _ _ Hc) as (calls & m & f & Hf & _ & Ha & _).
  exists calls, m, f. split; [exact Hf | exact Ha].
Qed.

(** C6, as amended. A successful call returns the fields of a completion
    that passed validation: the answer is the sanitized text of its
    [answer] field, with no white space at either end and possibly empty;
    each of the three lists is the list the completion gave, or the empty
    list when the completion left the field out. *)
Theorem ask_response_shape message session_id style self r self' :
  ask message session_id style self = (Ok r, self') ->
  exists calls m prompt f a,
    complete calls m prompt = Ok f
    /\ f_answer f = Some a
    /\ answer r = _sanitize_answer a
    /\ StripFacts.stripped (answer r) = true
    /\ key_points r = default [] (f_key_points f)
    /\ suggested_questions r = default [] (f_suggested_questions f)
    /\ references r = default [] (f_references f).
Proof.
  assert (Hval : forall calls m prompt resp,
             structured_result calls m prompt = Ok resp ->
             exists f a, complete calls m prompt = Ok f
                         /\ f_answer f = Some a
                         /\ answer resp = a
                         /\ key_points resp = default [] (f_key_points f)
                         /\ suggested_questions resp
                            = default [] (f_suggested_questions f)
                         /\ references resp = default [] (f_references f)).
  { intros calls m prompt resp. unfold structured_result, model_validate.
    destruct (complete calls m prompt) as [f|]; [|discriminate].
    destruct (f_answer f) as [a|] eqn:Ea; [|discriminate].
    intros [= <-]. exists f, a. repeat split; [exact Ea]. }
  assert (Hfin : forall calls m prompt resp (self1 : StudyAssistant B),
             structured_result calls m prompt = Ok resp ->
             finish (_vectorstore self) message resp self1 = (Ok r, self') ->
             exists calls m prompt f a,
               complete calls m prompt = Ok f
               /\ f_answer f = Some a
               /\ answer r = _sanitize_answer a
               /\ StripFacts.stripped (answer r) = true
               /\ key_points r = default [] (f_key_points f)
               /\ suggested_questions r = default [] (f_suggested_questions f)
               /\ references r = default [] (f_references f)).
  { intros calls m prompt resp self1 Hs Hf.
    apply finish_ok in Hf as (-> & _).
    destruct (Hval _ _ _ _ Hs) as (f & a & Hc & Ha & <- & Hk & Hq & Hrf).
    exists calls, m, prompt, f, (answer resp). cbn [answer set_answer
      key_points suggested_questions references].
    repeat split; try assumption.
    apply PatternFacts.sanitize_stripped. }
  rewrite ask_run.
  destruct (retriever_invoke (_vectorstore self) message 4) as [docs|e];
    [|discriminate].
  cbn zeta. set (prompt := ask_prompt _ _ _ _ _).
  destruct (structured_result (llm_calls self) json_mode prompt)
    as [resp|e] eqn:E1.
  - apply (Hfin _ _ _ _ _ E1).
  - destruct (handled e); [|discriminate].
    destruct (structured_result _ json_schema prompt) as [resp|e2] eqn:E2;
      [|discriminate].
    apply (Hfin _ _ _ _ _ E2).
Qed.


(** C8. A call under session [session_id] leaves the messages of every
    other session as they were, and what it returns and what it leaves
    under its own session do not depend on the messages of any other
    session: two states that agree on the note store, on the requests made
    so far and on the messages of [session_id] give the same outcome. *)
Theorem ask_session_isolation message session_id style self other :
  session_id <> other ->
  _message_store (snd (ask message session_id style self)) !! other
  = _message_store self !! other
  /\ forall self2 : StudyAssistant B,
       _vectorstore self2 = _vectorstore self ->
       llm_calls self2 = llm_calls self ->
       _message_store self2 !! session_id = _message_store self !! session_id ->
       fst (ask message session_id style self2)
       = fst (ask message session_id style self)
       /\ _message_store (snd (ask message session_id style self2)) !! session_id
          = _message_store (snd (ask message session_id style self)) !! session_id.
Proof.
  intros Hne. split.
  - rewrite ask_run.
    destruct (retriever_invoke (_vectorstore self) message 4) as [docs|e];
      [|reflexivity].
    cbn zeta. set (prompt := ask_prompt _ _ _ _ _).
    unfold finish, recorded, opened. cbn zeta.
    repeat match goal with
           | |- context [match ?x with _ => _ end] => destruct x
           end;
      cbn [snd _message_store set_message_store set_vectorstore log_call];
      rewrite ?lookup_insert_ne by exact Hne; reflexivity.
  - intros self2 Hvs Hc Hh.
    assert (Hhist : history self2 session_id = history self session_id).
    { unfold history. rewrite Hh. reflexivity. }
    rewrite !ask_run, Hvs, Hc.
    destruct (retriever_invoke (_vectorstore self) message 4) as [docs|e].
    2:{ split; [reflexivity | exact Hh]. }
    cbn zeta. unfold ask_prompt. rewrite Hhist.
    set (prompt := _prompt _).
    unfold finish, recorded. cbn zeta.
    rewrite ?history_log_call, ?history_opened, ?Hhist.
    unfold opened.
    repeat match goal with
           | |- context [match ?x with _ => _ end] => destruct x
           end;
      cbn [fst snd _message_store set_message_store set_vectorstore log_call];
      rewrite ?lookup_insert_eq, ?Hhist; split; reflexivity.
Qed.

(** C9. [reset_session] returns normally; afterwards the session has no
    message log; the logs of the other sessions and the note store are as
    before; on an absent session the state does not change at all; a
    second reset changes nothing more. *)
Theorem reset_session_frame session_id self :
  let self' := snd (reset_session session_id self) in
  fst (reset_session session_id self) = Ok tt
  /\ _message_store self' !! session_id = None
  /\ (forall other, other <> session_id ->
        _message_store self' !! other = _message_store self !! other)
  /\ _vectorstore self' = _vectorstore self
  /\ llm_calls self' = llm_calls self
  /\ (_message_store self !! session_id = None -> self' = self)
  /\ reset_session session_id self' = (Ok tt, self').
Proof.
  cbn zeta. unfold reset_session. cbn [fst snd].
  destruct (_message_store self !! session_id) as [h|] eqn:E.
  - rewrite bool_decide_eq_true_2 by (eexists; reflexivity).
    cbn [_message_store set_message_store _vectorstore llm_calls].
    rewrite lookup_delete_eq.
    rewrite bool_decide_eq_false_2 by (intros [x Hx]; discriminate).
    repeat split; try discriminate.
    intros other Ho. apply lookup_delete_ne. congruence.
  - rewrite bool_decide_eq_false_2 by (intros [x Hx]; discriminate).
    rewrite E.
    rewrite bool_decide_eq_false_2 by (intros [x Hx]; discriminate).
    repeat split; try exact E.
Qed.

End AskClaims.

(** ** [ask] and [reset_session] on concrete backends *)

Section AskScenarios.
Import Assistant AskFacts Scenario ClientScenario.

(** The note write fails after the completion succeeded: the caller gets
    the storage error, the note store is as before, and the exchange is in
    the session's messages all the same. *)
Lemma note_failure_leaves_history :
  let self := fresh leaky (empty_store false) in
  let outcome := ask (B:=leaky) question s1 (lit "short") self in
  fst outcome = Raise (OtherError (lit "StorageError"))
  /\ _vectorstore (snd outcome) = _vectorstore self
  /\ history self s1 = []
  /\ history (snd outcome) s1
     = [HumanMessage question;
        AIMessage (lit "Reasoning: the sky is blue" ++ nl
                   ++ lit "Final answer here")].
Proof. cbn zeta. repeat split; vm_compute; reflexivity. Qed.

(** The provider cannot be reached and the client is the one the source
    builds, with two retries: [ask] makes one invocation and no secondary
    one, and the request of that invocation is sent three times before the
    caller gets the connection error. *)
Lemma provider_unavailable_is_resent :
  let self := fresh (through cut_off) (empty_store true) in
  let prompt := ask_prompt self question s1 (lit "short") [] in
  let outcome := ask (B:=through cut_off) question s1 (lit "short") self in
  fst outcome = Raise (OtherError (lit "APIConnectionError"))
  /\ llm_calls (snd outcome) = [(json_mode, prompt)]
  /\ GroqClient.max_retries cut_off = 2
  /\ GroqClient.posts cut_off (llm_calls self) json_mode prompt = 3.
Proof. cbn zeta. repeat split; vm_compute; reflexivity. Qed.

Lemma ask_fallback_once_witness :
  (let self := fresh malformed (empty_store true) in
   let prompt := ask_prompt self question s1 (lit "short") [] in
   let outcome := ask (B:=malformed) question s1 (lit "short") self in
   structured_result (B:=malformed) (llm_calls self) json_mode prompt
   = Raise ValueError
   /\ llm_calls (snd outcome) = [(json_mode, prompt); (json_schema, prompt)])
  /\ (let self := fresh rejecting (empty_store true) in
      let prompt := ask_prompt self question s1 (lit "short") [] in
      let outcome := ask (B:=rejecting) question s1 (lit "short") self in
      structured_result (B:=rejecting) (llm_calls self) json_mode prompt
      = Raise BadRequestError
      /\ llm_calls (snd outcome)
         = [(json_mode, prompt); (json_schema, prompt)])
  /\ (let self := fresh (through cut_off) (empty_store true) in
      let prompt := ask_prompt self question s1 (lit "short") [] in
      let outcome := ask (B:=through cut_off) question s1 (lit "short") self in
      structured_result (B:=through cut_off) (llm_calls self) json_mode prompt
      = Raise (OtherError (lit "APIConnectionError"))
      /\ llm_calls (snd outcome) = [(json_mode, prompt)]
      /\ fst outcome = Raise (OtherError (lit "APIConnectionError"))
      /\ GroqClient.posts cut_off (llm_calls self) json_mode prompt = 3).
Proof.
  cbn zeta. split; [|split].
  - split; [reflexivity|].
    destruct (ask_fallback_once (B:=malformed) question s1 (lit "short")
                (fresh malformed (empty_store true)) [] ValueError cut_off
                eq_refl eq_refl) as (Hshape & _).
    exact (proj1 (Hshape (or_intror (or_introl eq_refl)))).
  - split; [reflexivity|].
    destruct (ask_fallback_once (B:=rejecting) question s1 (lit "short")
                (fresh rejecting (empty_store true)) [] BadRequestError cut_off
                eq_refl eq_refl) as (Hshape & _).
    exact (proj1 (Hshape (or_introl eq_refl))).
  - split; [reflexivity|].
    destruct (ask_fallback_once (B:=through cut_off) question s1 (lit "short")
                (fresh (through cut_off) (empty_store true)) []
                (OtherError (lit "APIConnectionError")) cut_off
                eq_refl eq_refl) as (_ & Hother & _ & Hsent).
    destruct (Hother _ eq_refl) as (Hcalls & Hout).
    split; [exact Hcalls|]. split; [exact Hout|].
    exact (Hsent (fun _ _ _ => eq_refl) eq_refl eq_refl).
Defined.

(** The chat model leaks a reasoning line: the caller gets the answer
    without it, the session's messages keep it. *)
Lemma history_keeps_unsanitized_answer :
  let self := fresh leaky (empty_store true) in
  let outcome := ask (B:=leaky) question s1 (lit "short") self in
  (exists r, fst outcome = Ok r /\ answer r = lit "Final answer here"
             /\ last (history (snd outcome) s1) <> Some (AIMessage (answer r)))
  /\ last (history (snd outcome) s1)
     = Some (AIMessage (lit "Reasoning: the sky is blue" ++ nl
                        ++ lit "Final answer here")).
Proof.
  cbn zeta. split.
  - eexists. split; [vm_compute; reflexivity|].
    split; [reflexivity|]. vm_compute. discriminate.
  - vm_compute. reflexivity.
Qed.

Lemma ask_history_raw_answer_witness :
  let self := fresh leaky (empty_store true) in
  let outcome := ask (B:=leaky) question s1 (lit "short") self in
  exists docs resp,
    retriever_invoke (Backend:=leaky) (_vectorstore self) question 4 = Ok docs
    /\ completed self question s1 (lit "short") docs = Ok resp
    /\ (exists calls m f,
          complete (Backend:=leaky) calls m
            (ask_prompt self question s1 (lit "short") (notes_text docs))
          = Ok f
          /\ f_answer f = Some (answer resp))
    /\ history (snd outcome) s1
       = history self s1 ++ [HumanMessage question; AIMessage (answer resp)]
    /\ answer final_answer = _sanitize_answer (answer resp).
Proof.
  cbn zeta.
  apply (ask_history_raw_answer (B:=leaky) question s1 (lit "short")
           (fresh leaky (empty_store true)) final_answer).
  vm_compute. reflexivity.
Defined.

(** A non-empty question, either style, a successful call, and an empty
    answer: the chat model gave reasoning only, or gave an empty answer. *)
Lemma ask_answer_can_be_empty :
  question <> []
  /\ (forall style, style = lit "short" \/ style = lit "detailed" ->
        exists r self',
          ask (B:=only_thoughts) question s1 style
            (fresh only_thoughts (empty_store true)) = (Ok r, self')
          /\ answer r = [])
  /\ (exists r self',
        ask (B:=silent) question s1 (lit "short")
          (fresh silent (empty_store true)) = (Ok r, self')
        /\ answer r = []).
Proof.
  split; [discriminate|]. split.
  - intros style [-> | ->]; eexists; eexists; split;
      try (vm_compute; reflexivity); reflexivity.
  - eexists. eexists. split; [vm_compute; reflexivity | reflexivity].
Qed.

Lemma ask_response_shape_witness :
  let outcome :=
    ask (B:=leaky) question s1 (lit "detailed")
      (fresh leaky (empty_store true)) in
  exists calls m prompt f a,
    complete (Backend:=leaky) calls m prompt = Ok f
    /\ f_answer f = Some a
    /\ answer final_answer = _sanitize_answer a
    /\ StripFacts.stripped (answer final_answer) = true
    /\ key_points final_answer = default [] (f_key_points f)
    /\ suggested_questions final_answer
       = default [] (f_suggested_questions f)
    /\ references final_answer = default [] (f_references f).
Proof.
  cbn zeta.
  apply (ask_response_shape (B:=leaky) question s1 (lit "detailed")
           (fresh leaky (empty_store true)) final_answer
           (snd (ask (B:=leaky) question s1 (lit "detailed")
                   (fresh leaky (empty_store true))))).
  vm_compute. reflexivity.
Defined.


Lemma ask_session_isolation_witness :
  let self := two_sessions leaky (empty_store true) in
  s1 <> s2
  /\ _message_store (snd (ask (B:=leaky) question s1 (lit "short") self)) !! s2
     = _message_store self !! s2.
Proof.
  cbn zeta.
  assert (H : s1 <> s2) by discriminate.
  split; [exact H|].
  apply (ask_session_isolation (B:=leaky) question s1 (lit "short")
           (two_sessions leaky (empty_store true)) s2 H).
Defined.

Lemma reset_session_frame_witness :
  let self := two_sessions leaky (empty_store true) in
  let self' := snd (reset_session s1 self) in
  s2 <> s1
  /\ _message_store self' !! s1 = None
  /\ _message_store self' !! s2 = _message_store self !! s2.
Proof.
  cbn zeta.
  assert (H : s2 <> s1) by discriminate.
  destruct (reset_session_frame (B:=leaky) s1
              (two_sessions leaky (empty_store true)))
    as (_ & Hgone & Hothers & _).
  split; [exact H|]. split; [exact Hgone | exact (Hothers s2 H)].
Defined.

End AskScenarios.

(** ** More about the sanitizer *)

Module SanitizerExtraFacts.
Import Re StripFacts ReFacts PatternFacts.

Lemma sub_from_sublist f r : forall rest skip pos,
  sub_from f r skip pos rest `sublist_of` rest.
Proof.
  induction rest as [|c rest IH]; intros skip pos; cbn [sub_from].
  - constructor.
  - destruct skip as [|k].
    + destruct (match_at _ _ _) as [[pos' ?]|].
      * apply sublist_cons, IH.
      * apply sublist_skip, IH.
    + apply sublist_cons, IH.
Qed.

Lemma strip_sublist t : strip t `sublist_of` t.
Proof.
  destruct (strip_middle t) as (a & b & E).
  rewrite E at 2. apply sublist_inserts_l, sublist_inserts_r. reflexivity.
Qed.

Lemma step_sublist y p : step y p `sublist_of` y.
Proof.
  unfold step. etransitivity; [apply strip_sublist | apply sub_from_sublist].
Qed.

Lemma fold_step_sublist ps : forall y, fold_left step ps y `sublist_of` y.
Proof.
  induction ps as [|p ps IH]; intros y; cbn [fold_left]; [reflexivity|].
  etransitivity; [apply IH | apply step_sublist].
Qed.

Lemma lstrip_all_space t : forallb isspace t = true -> lstrip t = [].
Proof.
  induction t as [|c t IH]; cbn [forallb lstrip]; [reflexivity|].
  intros H. apply andb_true_iff in H as [-> H]. apply IH, H.
Qed.

Lemma strip_all_space t : forallb isspace t = true -> strip t = [].
Proof. intros H. unfold strip. rewrite (lstrip_all_space t H). reflexivity. Qed.

Lemma lit_match_t_r c :
  lit_match flags_i 116 c = true -> lit_match flags_i 114 c = false.
Proof. char_cases. Qed.

Lemma lit_match_r_a c :
  lit_match flags_i 114 c = true -> lit_match flags_i 97 c = false.
Proof. char_cases. Qed.

Lemma lits_match_head_none f p ps c t :
  lit_match f p c = false -> lits_match f (p :: ps) (c :: t) = None.
Proof. cbn [lits_match]. intros ->. reflexivity. Qed.

(** A text that starts with white space starts with no line marker. *)
Lemma space_no_thoughts t : starts_space t = true -> thoughts_marker t = None.
Proof.
  destruct t as [|c t]; [discriminate|]. cbn [starts_space]. intros Hc.
  assert (Ht : lit_match flags_i 116 c = false).
  { destruct (lit_match flags_i 116 c) eqn:E; [|reflexivity].
    rewrite (t_not_space c E) in Hc. discriminate. }
  unfold thoughts_marker, ci_starts.
  assert (E1 : lits_match flags_i (lit "thoughts:") (c :: t) = None)
    by apply (lits_match_head_none flags_i 116 (lit "houghts:") c t Ht).
  rewrite E1.
  apply (lits_match_head_none flags_i 116 (lit "hought:") c t Ht).
Qed.

Lemma thoughts_first t :
  is_Some (thoughts_marker t) ->
  exists c t', t = c :: t' /\ lit_match flags_i 116 c = true.
Proof.
  unfold thoughts_marker, ci_starts. intros [r H].
  destruct (lits_match flags_i (lit "thoughts:") t) as [r1|] eqn:E1.
  - exact (lits_match_first _ _ _ _ _ E1).
  - exact (lits_match_first _ _ _ _ _ H).
Qed.

(** At most one of the three markers starts a text. *)
Lemma thoughts_excludes t :
  is_Some (thoughts_marker t) ->
  reasoning_marker t = None /\ analysis_marker t = None.
Proof.
  intros H. destruct (thoughts_first t H) as (c & t' & -> & Hc).
  split.
  - apply (lits_match_head_none flags_i 114 (lit "easoning:") c t').
    apply lit_match_t_r, Hc.
  - apply (lits_match_head_none flags_i 97 (lit "nalysis:") c t').
    apply lit_match_t_a, Hc.
Qed.

Lemma reasoning_excludes t rest :
  reasoning_marker t = Some rest ->
  thoughts_marker t = None /\ analysis_marker t = None.
Proof.
  intros H. destruct (lits_match_first _ _ _ _ _ H) as (c & t' & -> & Hc).
  change (lit_match flags_i 114 c = true) in Hc.
  assert (Ht : lit_match flags_i 116 c = false).
  { destruct (lit_match flags_i 116 c) eqn:E; [|reflexivity].
    rewrite (lit_match_t_r c E) in Hc. discriminate. }
  split.
  - unfold thoughts_marker, ci_starts.
    assert (E1 : lits_match flags_i (lit "thoughts:") (c :: t') = None)
      by apply (lits_match_head_none flags_i 116 (lit "houghts:") c t' Ht).
    rewrite E1.
    apply (lits_match_head_none flags_i 116 (lit "hought:") c t' Ht).
  - apply (lits_match_head_none flags_i 97 (lit "nalysis:") c t').
    apply lit_match_r_a, Hc.
Qed.

Lemma analysis_excludes t rest :
  analysis_marker t = Some rest ->
  thoughts_marker t = None /\ reasoning_marker t = None.
Proof.
  intros H. destruct (lits_match_first _ _ _ _ _ H) as (c & t' & -> & Hc).
  change (lit_match flags_i 97 c = true) in Hc.
  assert (Ht : lit_match flags_i 116 c = false).
  { destruct (lit_match flags_i 116 c) eqn:E; [|reflexivity].
    rewrite (lit_match_t_a c E) in Hc. discriminate. }
  assert (Hr : lit_match flags_i 114 c = false).
  { destruct (lit_match flags_i 114 c) eqn:E; [|reflexivity].
    rewrite (lit_match_r_a c E) in Hc. discriminate. }
  split.
  - unfold thoughts_marker, ci_starts.
    assert (E1 : lits_match flags_i (lit "thoughts:") (c :: t') = None)
      by apply (lits_match_head_none flags_i 116 (lit "houghts:") c t' Ht).
    rewrite E1.
    apply (lits_match_head_none flags_i 116 (lit "hought:") c t' Ht).
  - apply (lits_match_head_none flags_i 114 (lit "easoning:") c t' Hr).
Qed.

(** The rest of the passes on a text that holds no marker. *)
Lemma tail_passes_marker_free x :
  has_marker x = false ->
  strip (sub flags_is pat_fence (strip (sub flags_i pat_analysis (strip x))))
  = strip x.
Proof.
  intros H. apply has_marker_strip, has_marker_false in H as [Hl Hf].
  apply line_marker_false in Hl as (_ & _ & H3).
  rewrite sub_analysis, H3, strip_strip.
  rewrite (sub_not_found _ _ _ (search_fence_open _ Hf)). apply strip_strip.
Qed.

Lemma fence_pass_marker_free x :
  has_marker x = false ->
  strip (sub flags_is pat_fence (strip x)) = strip x.
Proof.
  intros H. apply has_marker_strip, has_marker_false in H as [_ Hf].
  rewrite (sub_not_found _ _ _ (search_fence_open _ Hf)). apply strip_strip.
Qed.

Lemma backtick_match c : lit_match flags_i 96 c = (c =? 96)%N.
Proof. apply lit_match_uncased. reflexivity. Qed.

Lemma fence_starts_other c u :
  (c =? 96)%N = false -> ci_starts "```" (c :: u) = None.
Proof.
  intros Hc. apply (lits_match_head_none flags_i 96 [96%N; 96%N] c u).
  rewrite backtick_match. exact Hc.
Qed.

Lemma no_fence_at_other c u :
  (c =? 96)%N = false -> fence_block (c :: u) = None.
Proof.
  intros Hc. unfold fence_block, fence_open.
  rewrite (fence_starts_other c u Hc). reflexivity.
Qed.

Lemma after_fence_no_backtick r : no_backtick r = true -> after_fence r = None.
Proof.
  induction r as [|c r IH]; [reflexivity|].
  cbn [no_backtick forallb]. intros H. apply andb_true_iff in H as [Hc H].
  apply negb_true_iff in Hc. cbn [after_fence].
  rewrite (fence_starts_other c r Hc).
  apply IH, H.
Qed.

Lemma no_backtick_app a b :
  no_backtick (a ++ b) = no_backtick a && no_backtick b.
Proof. apply forallb_app. Qed.

Lemma lits_match_no_backtick f ps t r :
  lits_match f ps t = Some r -> no_backtick t = true -> no_backtick r = true.
Proof.
  intros H Ht. destruct (lits_match_app _ _ _ _ H) as (pre & -> & _).
  rewrite no_backtick_app in Ht. apply andb_true_iff in Ht as [_ Ht]. exact Ht.
Qed.

Lemma skip_sep_no_backtick r :
  no_backtick r = true -> no_backtick (skip_sep r) = true.
Proof.
  destruct r as [|c r]; [intros _; reflexivity|].
  cbn [skip_sep no_backtick forallb].
  intros H. destruct ((c =? 45) || (c =? 32))%N; [|exact H].
  apply andb_true_iff in H as [_ H]. exact H.
Qed.

Lemma label_rest_no_backtick t r :
  label_rest t = Some r -> no_backtick t = true -> no_backtick r = true.
Proof.
  unfold label_rest, ci_starts. intros H Ht.
  destruct (lits_match flags_i (lit "thought") t) as [r0|] eqn:E0.
  - injection H as <-. exact (lits_match_no_backtick _ _ _ _ E0 Ht).
  - destruct (lits_match flags_i (lit "chain") t) as [r1|] eqn:E1.
    + destruct (lits_match flags_i (lit "of") (skip_sep r1)) as [r2|] eqn:E2;
        [|discriminate].
      pose proof (lits_match_no_backtick _ _ _ _ E1 Ht) as H1.
      pose proof (lits_match_no_backtick _ _ _ _ E2
                    (skip_sep_no_backtick _ H1)) as H2.
      exact (lits_match_no_backtick _ _ _ _ H (skip_sep_no_backtick _ H2)).
    + exact (lits_match_no_backtick _ _ _ _ H Ht).
Qed.

(** Three backticks with no backtick after them start no block. *)
Lemma no_fence_unclosed body :
  no_backtick body = true ->
  anywhere (fun u => bool_decide (is_Some (fence_block u)))
    (lit "```" ++ body) = false.
Proof.
  intros Hb.
  assert (Hbody : anywhere (fun u => bool_decide (is_Some (fence_block u)))
                    body = false).
  { clear -Hb. induction body as [|c body IH]; [reflexivity|].
    cbn [no_backtick forallb] in Hb. apply andb_true_iff in Hb as [Hc Hb].
    apply negb_true_iff in Hc. cbn [anywhere].
    rewrite (no_fence_at_other c body Hc). cbn. apply IH, Hb. }
  assert (H1 : fence_block (96%N :: body) = None).
  { destruct body as [|c body]; [reflexivity|].
    cbn [no_backtick forallb] in Hb. apply andb_true_iff in Hb as [Hc _].
    apply negb_true_iff in Hc.
    unfold fence_block, fence_open, ci_starts.
    cbn [lit list_ascii_of_string map lits_match].
    rewrite !backtick_match, Hc. cbn. reflexivity. }
  assert (H2 : fence_block (96%N :: 96%N :: body) = None).
  { destruct body as [|c body]; [reflexivity|].
    cbn [no_backtick forallb] in Hb. apply andb_true_iff in Hb as [Hc _].
    apply negb_true_iff in Hc.
    unfold fence_block, fence_open, ci_starts.
    cbn [lit list_ascii_of_string map lits_match].
    rewrite !backtick_match, Hc. cbn. reflexivity. }
  assert (H3 : fence_block (96%N :: 96%N :: 96%N :: body) = None).
  { unfold fence_block, fence_open, ci_starts.
    change (lits_match flags_i (lit "```") (96%N :: 96%N :: 96%N :: body))
      with (Some body).
    destruct (label_rest body) as [r|] eqn:E; [|reflexivity].
    apply after_fence_no_backtick.
    exact (label_rest_no_backtick _ _ E Hb). }
  change (lit "```" ++ body) with (96%N :: 96%N :: 96%N :: body).
  cbn [anywhere]. rewrite H3, H2, H1, Hbody. reflexivity.
Qed.

Lemma no_fence_unclosed_after pre : forall body,
  no_backtick pre = true -> no_backtick body = true ->
  anywhere (fun u => bool_decide (is_Some (fence_block u)))
    (pre ++ lit "```" ++ body) = false.
Proof.
  induction pre as [|c pre IH]; intros body Hp Hb.
  - apply no_fence_unclosed, Hb.
  - cbn [no_backtick forallb] in Hp. apply andb_true_iff in Hp as [Hc Hp].
    apply negb_true_iff in Hc. cbn [app anywhere].
    rewrite (no_fence_at_other c _ Hc). cbn. apply IH; assumption.
Qed.

End SanitizerExtraFacts.

Section SanitizerExtras.
Import Re StripFacts ReFacts PatternFacts SanitizerExtraFacts.

(** X1. The sanitizer only deletes: what it returns is the input with some
    characters left out, in the same order. *)
Theorem sanitize_only_deletes (t : pystr) :
  _sanitize_answer t `sublist_of` t.
Proof. unfold _sanitize_answer. apply fold_step_sublist. Qed.

(** X2. A text made of white space only, the empty text included, is
    sanitized to the empty text. *)
Theorem sanitize_blank (t : pystr) :
  forallb isspace t = true -> _sanitize_answer t = [].
Proof.
  intros H. pose proof (strip_all_space t H) as Hs.
  transitivity (strip t); [|exact Hs].
  apply sanitize_unmarked; rewrite Hs; reflexivity.
Qed.

Lemma sanitize_blank_witness :
  _sanitize_answer (lit "  " ++ nl ++ [160%N; 12288%N]) = [].
Proof.
  apply (sanitize_blank (lit "  " ++ nl ++ [160%N; 12288%N])).
  reflexivity.
Defined.

(** X3. White space in front protects a ["Thoughts:"] line: the first pass
    runs before any [strip], so it does not see the marker, and the later
    passes look for other markers. The text comes back stripped, marker
    line included. *)
Theorem thoughts_after_space_kept (t : pystr) :
  starts_space t = true ->
  is_Some (thoughts_marker (strip t)) ->
  has_fence_open (strip t) = false ->
  _sanitize_answer t = strip t.
Proof.
  intros Hsp Hth Hf.
  destruct (thoughts_excludes _ Hth) as [Hr Ha].
  rewrite sanitize_unfold.
  rewrite sub_thoughts, (space_no_thoughts t Hsp).
  rewrite sub_reasoning, Hr, strip_strip.
  rewrite sub_analysis, Ha, strip_strip.
  rewrite (sub_not_found _ _ _ (search_fence_open _ Hf)). apply strip_strip.
Qed.

Lemma thoughts_after_space_kept_witness :
  _sanitize_answer (lit " Thoughts: hidden" ++ nl ++ lit "Answer")
  = lit "Thoughts: hidden" ++ nl ++ lit "Answer".
Proof.
  rewrite (thoughts_after_space_kept
             (lit " Thoughts: hidden" ++ nl ++ lit "Answer")).
  - reflexivity.
  - reflexivity.
  - vm_compute. eexists. reflexivity.
  - reflexivity.
Defined.

(** X4. White space in front does not protect a ["Reasoning:"] or an
    ["Analysis:"] line: the [strip] of an earlier pass brings the marker to
    the start of the text. When what follows the marker's line holds no
    marker, the result is that remainder, stripped. *)
Theorem later_markers_after_space_removed (t rest : pystr) :
  reasoning_marker (strip t) = Some rest
  \/ analysis_marker (strip t) = Some rest ->
  has_marker (after_line rest) = false ->
  _sanitize_answer t = strip (after_line rest).
Proof.
  intros [Hm|Hm] Hfree; rewrite sanitize_unfold.
  - destruct (reasoning_excludes _ _ Hm) as [Ht _].
    rewrite sub_thoughts, (thoughts_marker_strip t Ht).
    rewrite sub_reasoning, Hm.
    apply tail_passes_marker_free, Hfree.
  - destruct (analysis_excludes _ _ Hm) as [Ht Hr].
    rewrite sub_thoughts, (thoughts_marker_strip t Ht).
    rewrite sub_reasoning, Hr, strip_strip.
    rewrite sub_analysis, Hm.
    apply fence_pass_marker_free, Hfree.
Qed.

Lemma later_markers_after_space_removed_witness :
  _sanitize_answer (lit "  Analysis: hidden" ++ nl ++ lit "Answer ")
  = lit "Answer".
Proof.
  rewrite (later_markers_after_space_removed
             (lit "  Analysis: hidden" ++ nl ++ lit "Answer ")
             (lit " hidden" ++ nl ++ lit "Answer")).
  - reflexivity.
  - right. reflexivity.
  - reflexivity.
Defined.

(** X5. A labelled fence that is never closed is kept: the fence pass
    changes nothing in a text whose only backticks are three in a row, and
    when that text is stripped and starts with no line marker the sanitizer
    returns it as it is. *)
Theorem unclosed_fence_kept (pre body : pystr) :
  no_backtick pre = true ->
  no_backtick body = true ->
  sub flags_is pat_fence (pre ++ lit "```" ++ body) = pre ++ lit "```" ++ body
  /\ (stripped (pre ++ lit "```" ++ body) = true ->
      line_marker (pre ++ lit "```" ++ body) = false ->
      _sanitize_answer (pre ++ lit "```" ++ body) = pre ++ lit "```" ++ body).
Proof.
  intros Hp Hb.
  assert (Hs : search flags_is pat_fence (pre ++ lit "```" ++ body) = false).
  { unfold search. rewrite search_from_fence.
    apply no_fence_unclosed_after; assumption. }
  split; [apply sub_not_found, Hs|].
  intros Hst Hl. pose proof (strip_id _ Hst) as Hid.
  rewrite <- Hid at 2. apply sanitize_unmarked; rewrite Hid; assumption.
Qed.

Lemma unclosed_fence_kept_witness :
  _sanitize_answer (lit "Answer " ++ lit "```" ++ lit "thought never closed")
  = lit "Answer " ++ lit "```" ++ lit "thought never closed".
Proof.
  apply (proj2 (unclosed_fence_kept (lit "Answer ")
                  (lit "thought never closed") eq_refl eq_refl));
    reflexivity.
Defined.

End SanitizerExtras.

(** ** More about [ask], the session store and the notes *)

Module AskExtraFacts.
Import Assistant AskFacts.

Section WithBackend.
Context {B : Backend}.
Implicit Types (self : StudyAssistant B) (message session_id style : pystr).

Lemma short_in_styles : lit "short" ∈ styles.
Proof. apply (bool_decide_unpack _). vm_compute. reflexivity. Qed.

Lemma normalize_style_idemp style :
  normalize_style (normalize_style style) = normalize_style style.
Proof.
  unfold normalize_style at 2. destruct (bool_decide (style ∈ styles)) eqn:E.
  - unfold normalize_style. rewrite E. reflexivity.
  - unfold normalize_style.
    rewrite E, (bool_decide_eq_true_2 _ short_in_styles). reflexivity.
Qed.

Lemma ask_normalize message session_id style self :
  ask message session_id (normalize_style style) self
  = ask message session_id style self.
Proof. unfold ask. rewrite normalize_style_idemp. reflexivity. Qed.

(** Case analysis on the outcome of [ask], after [ask_run]. *)
Ltac ask_cases :=
  unfold finish, recorded, opened; cbn zeta;
  repeat match goal with
         | |- context [match ?x with _ => _ end] => destruct x eqn:?
         end;
  cbn [fst snd _message_store _vectorstore llm_calls set_message_store
       set_vectorstore log_call].

Lemma ask_frame message session_id style self other :
  session_id <> other ->
  _message_store (snd (ask message session_id style self)) !! other
  = _message_store self !! other.
Proof.
  intros Hne. rewrite ask_run. ask_cases;
    rewrite ?lookup_insert_ne by exact Hne; reflexivity.
Qed.

Lemma ask_calls message session_id style self :
  exists extra,
    llm_calls (snd (ask message session_id style self))
    = llm_calls self ++ extra
    /\ length extra <= 2.
Proof.
  rewrite ask_run. ask_cases;
    first [ exists []; rewrite app_nil_r; split; [reflexivity | cbn; lia]
          | eexists [_]; split; [reflexivity | cbn; lia]
          | eexists [_; _]; rewrite <- app_assoc; split;
            [reflexivity | cbn; lia] ].
Qed.

Lemma history_set_vectorstore self vs sid :
  history (set_vectorstore vs self) sid = history self sid.
Proof. reflexivity. Qed.

(** Case analysis on the outcome of [ask], for goals about [history]. *)
Ltac ask_history_cases :=
  unfold finish; cbn zeta;
  repeat match goal with
         | |- context [match ?x with _ => _ end] => destruct x eqn:?
         end;
  cbn [snd];
  rewrite ?history_set_vectorstore, ?history_recorded, ?history_log_call,
    ?history_opened.

Lemma ask_own_history message session_id style self :
  exists added,
    history (snd (ask message session_id style self)) session_id
    = history self session_id ++ added.
Proof.
  rewrite ask_run. ask_history_cases;
    first [ eexists; reflexivity
          | exists []; rewrite app_nil_r; reflexivity ].
Qed.

Lemma ask_keeps_session message session_id style self sid :
  is_Some (_message_store self !! sid) ->
  is_Some (_message_store (snd (ask message session_id style self)) !! sid).
Proof.
  intros Hs. rewrite ask_run. ask_cases;
    try exact Hs;
    (destruct (decide (session_id = sid)) as [->|Hne];
     [rewrite lookup_insert_eq; eexists; reflexivity
     |rewrite !lookup_insert_ne by exact Hne; exact Hs]).
Qed.

Lemma ask_first_request message session_id style self docs :
  retriever_invoke (_vectorstore self) message 4 = Ok docs ->
  llm_calls (snd (ask message session_id style self))
    !! length (llm_calls self)
  = Some (json_mode,
          ask_prompt self message session_id style (notes_text docs)).
Proof.
  intros Hd. rewrite ask_run, Hd. ask_cases;
    rewrite <- ?app_assoc; rewrite lookup_app_r by lia;
    rewrite Nat.sub_diag; reflexivity.
Qed.

Lemma ask_opens message session_id style self docs :
  retriever_invoke (_vectorstore self) message 4 = Ok docs ->
  is_Some (_message_store (snd (ask message session_id style self))
             !! session_id).
Proof.
  intros Hd. rewrite ask_run, Hd. ask_cases;
    rewrite lookup_insert_eq; eexists; reflexivity.
Qed.

Lemma reset_session_run session_id self :
  let self' := snd (reset_session session_id self) in
  _vectorstore self' = _vectorstore self
  /\ llm_calls self' = llm_calls self
  /\ history self' session_id = [].
Proof.
  cbn zeta. unfold reset_session, history. cbn [snd].
  destruct (bool_decide _) eqn:E.
  - cbn [_message_store _vectorstore llm_calls set_message_store].
    rewrite lookup_delete_eq. repeat split.
  - apply bool_decide_eq_false in E.
    destruct (_message_store self !! session_id) as [h|] eqn:Eh.
    + destruct E. eexists. reflexivity.
    + repeat split.
Qed.

Lemma note_parts_lookup docs : forall idx i,
  note_parts idx docs !! i = note_part (idx + i) <$> docs !! i.
Proof.
  induction docs as [|d docs IH]; intros idx i; [reflexivity|].
  destruct i as [|i]; cbn [note_parts lookup list_lookup fmap option_fmap
                           option_map].
  - rewrite Nat.add_0_r. reflexivity.
  - rewrite IH. replace (S idx + i) with (idx + S i) by lia. reflexivity.
Qed.

Lemma join_prefix sep p ps : p `prefix_of` join sep (p :: ps).
Proof.
  destruct ps as [|q ps]; cbn [join].
  - reflexivity.
  - eexists. reflexivity.
Qed.

End WithBackend.

End AskExtraFacts.

Section AskExtras.
Import Assistant AskFacts AskExtraFacts Scenario Scenario2.
Context {B : Backend}.
Implicit Types (self : StudyAssistant B) (message session_id style : pystr).

(** X6. When retrieval raises, [ask] raises the same exception and has done
    nothing: no request to the chat model, no session created, no note. *)
Theorem ask_retrieval_failure message session_id style self e :
  retriever_invoke (_vectorstore self) message 4 = Raise e ->
  ask message session_id style self = (Raise e, self).
Proof. intros H. rewrite ask_run, H. reflexivity. Qed.

(** X7. A call whose retrieval succeeds invokes the structured chat model
    once or twice, never more: first by [json_mode], then at most once by
    [json_schema], both with the same prompt; when the first invocation
    succeeds it is the only one. These are invocations of the runnable:
    the client below may send the request of one invocation more than
    once. *)
Theorem ask_invocations message session_id style self docs :
  retriever_invoke (_vectorstore self) message 4 = Ok docs ->
  let prompt := ask_prompt self message session_id style (notes_text docs) in
  let calls := llm_calls (snd (ask message session_id style self)) in
  (calls = llm_calls self ++ [(json_mode, prompt)]
   \/ calls = llm_calls self ++ [(json_mode, prompt); (json_schema, prompt)])
  /\ (forall resp,
        structured_result (llm_calls self) json_mode prompt = Ok resp ->
        calls = llm_calls self ++ [(json_mode, prompt)]).
Proof.
  intros Hd prompt calls. subst calls. rewrite ask_run, Hd. cbn zeta.
  fold prompt.
  destruct (structured_result (llm_calls self) json_mode prompt)
    as [resp|e] eqn:E1.
  - assert (Hc : llm_calls
                   (snd (finish (_vectorstore self) message resp
                           (recorded self session_id json_mode prompt
                              (exchange message resp))))
                 = llm_calls self ++ [(json_mode, prompt)]).
    { unfold finish. cbn zeta. destruct (add_texts _ _ _); reflexivity. }
    split; [left; exact Hc | intros _ _; exact Hc].
  - split; [|discriminate].
    destruct (handled e); [|left; reflexivity].
    right. destruct (structured_result _ json_schema prompt) as [resp|e2].
    + unfold finish. cbn zeta.
      destruct (add_texts _ _ _); cbn; rewrite <- app_assoc; reflexivity.
    + cbn. rewrite <- app_assoc. reflexivity.
Qed.

(** X8. [ask] never removes a session and never rewrites a message: after
    the call every session that existed still exists, and the messages of
    every session start with the messages it had before. *)
Theorem ask_keeps_messages message session_id style self sid :
  let self' := snd (ask message session_id style self) in
  history self sid `prefix_of` history self' sid
  /\ (is_Some (_message_store self !! sid) ->
      is_Some (_message_store self' !! sid)).
Proof.
  cbn zeta. split; [|apply ask_keeps_session].
  destruct (decide (session_id = sid)) as [<-|Hne].
  - destruct (ask_own_history message session_id style self) as [added Ha].
    rewrite Ha. exists added. reflexivity.
  - unfold history. rewrite (ask_frame _ _ _ _ _ Hne). reflexivity.
Qed.

(** X9. Once retrieval has succeeded the session exists afterwards,
    whatever the outcome: a call whose completions fail still leaves the
    session behind, with the messages it had, or none when it is new. *)
Theorem ask_opens_session message session_id style self docs :
  retriever_invoke (_vectorstore self) message 4 = Ok docs ->
  exists h,
    _message_store (snd (ask message session_id style self)) !! session_id
    = Some h
    /\ history self session_id `prefix_of` h.
Proof.
  intros Hd. destruct (ask_opens message session_id style self docs Hd)
    as [h Hh].
  exists h. split; [exact Hh|].
  destruct (ask_own_history message session_id style self) as [added Ha].
  unfold history at 1 in Ha. rewrite Hh in Ha.
  change (h = history self session_id ++ added) in Ha.
  rewrite Ha. exists added. reflexivity.
Qed.

(** X10. A follow-up sees the turn before it: after a successful call, the
    first invocation of the next call under the same session carries a
    prompt whose history ends with the earlier user message and the answer
    exactly as the completion of the earlier call gave it, of which the
    caller got the sanitized form. *)
Theorem ask_follow_up message1 style1 message2 style2 session_id
    self r1 self1 docs2 :
  ask message1 session_id style1 self = (Ok r1, self1) ->
  retriever_invoke (_vectorstore self1) message2 4 = Ok docs2 ->
  exists docs1 resp1,
    retriever_invoke (_vectorstore self) message1 4 = Ok docs1
    /\ completed self message1 session_id style1 docs1 = Ok resp1
    /\ answer r1 = _sanitize_answer (answer resp1)
    /\ llm_calls (snd (ask message2 session_id style2 self1))
         !! length (llm_calls self1)
       = Some (json_mode,
               SystemMessage
                 (system_text (normalize_style style2) (notes_text docs2))
               :: (history self session_id
                   ++ [HumanMessage message1; AIMessage (answer resp1)])
               ++ [HumanMessage (human_text message2)]).
Proof.
  intros H1 Hd.
  destruct (ask_ok_completed _ _ _ _ _ _ H1)
    as (docs1 & resp1 & Hd1 & Hc1 & -> & Hh & _).
  exists docs1, resp1. split; [exact Hd1|]. split; [exact Hc1|].
  split; [reflexivity|].
  rewrite (ask_first_request message2 session_id style2 self1 docs2 Hd).
  unfold ask_prompt, _prompt. cbn [pi_style pi_notes pi_chat_history pi_input].
  rewrite Hh. reflexivity.
Qed.

(** X11. After [reset_session] the next call under that session starts
    with no prior turns, while the notes written before are still read: its
    first request carries the system text, built from the notes retrieved
    from the unchanged store, and the new user message, and nothing
    else. *)
Theorem reset_then_ask message session_id style self docs :
  retriever_invoke (_vectorstore self) message 4 = Ok docs ->
  llm_calls (snd (ask message session_id style
                    (snd (reset_session session_id self))))
    !! length (llm_calls self)
  = Some (json_mode,
          [SystemMessage (system_text (normalize_style style) (notes_text docs));
           HumanMessage (human_text message)]).
Proof.
  intros Hd.
  destruct (reset_session_run session_id self) as (Hvs & Hc & Hh).
  rewrite <- Hc.
  rewrite (ask_first_request message session_id style _ docs)
    by (rewrite Hvs; exact Hd).
  unfold ask_prompt, _prompt. cbn [pi_style pi_notes pi_chat_history pi_input].
  rewrite Hh. reflexivity.
Qed.

(** X12. [_get_or_create_history] returns the messages of the session and
    leaves the session in the store with exactly those messages; it
    touches no other session, nor the notes; on an existing session it
    changes nothing; a second call changes nothing more. *)
Theorem get_or_create_history_spec session_id self :
  let self' := snd (_get_or_create_history session_id self) in
  fst (_get_or_create_history session_id self) = Ok (history self session_id)
  /\ _message_store self' !! session_id = Some (history self session_id)
  /\ (forall other, other <> session_id ->
        _message_store self' !! other = _message_store self !! other)
  /\ _vectorstore self' = _vectorstore self
  /\ (is_Some (_message_store self !! session_id) -> self' = self)
  /\ _get_or_create_history session_id self'
     = (Ok (history self session_id), self').
Proof.
  cbn zeta. rewrite get_or_create_run. cbn [fst snd].
  split; [reflexivity|].
  split; [apply lookup_insert_eq|].
  split; [intros other Ho; apply lookup_insert_ne; congruence|].
  split; [reflexivity|].
  split.
  - intros [h Hh]. unfold opened, history. rewrite Hh. cbn [default].
    rewrite insert_id by exact Hh. destruct self; reflexivity.
  - rewrite get_or_create_run, history_opened. f_equal.
    unfold opened at 1. rewrite history_opened. unfold opened.
    cbn [_message_store set_message_store]. rewrite insert_insert_eq.
    reflexivity.
Qed.

(** X13. [_retrieve_notes] reads only: the assistant is the same
    afterwards, also when retrieval raises. The text it returns is empty
    exactly when no document was retrieved; otherwise it starts with
    ["[Note 1]"], and the documents are numbered from 1 in the order in
    which the retriever gave them. *)
Theorem retrieve_notes_spec (query : pystr) self :
  snd (_retrieve_notes query self) = self
  /\ match retriever_invoke (_vectorstore self) query 4 with
     | Raise e => fst (_retrieve_notes query self) = Raise e
     | Ok docs =>
         fst (_retrieve_notes query self) = Ok (notes_text docs)
         /\ (notes_text docs = [] <-> docs = [])
         /\ (docs <> [] -> lit "[Note 1]" `prefix_of` notes_text docs)
         /\ (forall i d, docs !! i = Some d ->
               note_parts 1 docs !! i = Some (note_part (S i) d))
     end.
Proof.
  unfold _retrieve_notes.
  destruct (retriever_invoke (_vectorstore self) query 4) as [docs|e];
    cbn [fst snd]; [|split; reflexivity].
  split; [reflexivity|]. split; [reflexivity|].
  assert (Hp : docs <> [] -> lit "[Note 1]" `prefix_of` notes_text docs).
  { destruct docs as [|d docs]; [congruence|]. intros _.
    unfold notes_text. cbn [note_parts].
    etransitivity; [|apply join_prefix].
    unfold note_part. cbn zeta. eexists.
    change (str_of_nat 1) with (lit "1").
    rewrite <- !app_assoc. reflexivity. }
  split; [|split; [exact Hp|]].
  - split; [|intros ->; reflexivity].
    intros He. destruct docs as [|d docs]; [reflexivity|].
    destruct (Hp ltac:(discriminate)) as [k Hk].
    rewrite He in Hk. discriminate.
  - intros i d Hi. rewrite note_parts_lookup, Hi. reflexivity.
Qed.

End AskExtras.

(** ** The front ends *)

Module FrontFacts.
Import Assistant AskFacts AskExtraFacts Console Server.

Section WithBackend.
Context {B : Backend}.
Implicit Types (self : StudyAssistant B) (session_id : pystr).

Lemma normalize_style_cases style :
  normalize_style style = lit "short" \/ normalize_style style = lit "detailed".
Proof.
  unfold normalize_style. destruct (bool_decide (style ∈ styles)) eqn:E.
  - apply bool_decide_eq_true in E. unfold styles in E.
    apply elem_of_union in E as [E|E]; apply elem_of_singleton in E;
      [left | right]; exact E.
  - left. reflexivity.
Qed.

Lemma or_else_some x d : d <> [] -> or_else (Some (or_else x d)) d = or_else x d.
Proof.
  intros Hd. unfold or_else at 2. destruct x as [[|c x]|]; cbn [truthy default].
  - unfold or_else. destruct d; [congruence | reflexivity].
  - reflexivity.
  - unfold or_else. destruct d; [congruence | reflexivity].
Qed.

Lemma or_else_normalized style d :
  or_else (Some (normalize_style style)) d = normalize_style style.
Proof.
  destruct (normalize_style_cases style) as [-> | ->]; reflexivity.
Qed.

Lemma chat_loop_filter inputs session_id : forall self,
  chat_loop inputs session_id self
  = chat_loop (List.filter nonblank inputs) session_id self.
Proof.
  induction inputs as [|user inputs IH]; intros self; [reflexivity|].
  cbn [chat_loop List.filter]. unfold nonblank at 1.
  destruct (strip user) as [|c u] eqn:E.
  - apply IH.
  - cbn [chat_loop]. rewrite E.
    destruct (ask user session_id (lit "short") self) as [[response|e] self'];
      [|reflexivity].
    rewrite IH. reflexivity.
Qed.

Lemma chat_loop_calls inputs session_id : forall self,
  length (llm_calls (snd (chat_loop inputs session_id self)))
  <= length (llm_calls self) + 2 * length (List.filter nonblank inputs).
Proof.
  induction inputs as [|user inputs IH]; intros self.
  - cbn. lia.
  - cbn [chat_loop List.filter]. unfold nonblank at 1.
    destruct (strip user) as [|c u] eqn:E; [apply IH|].
    destruct (ask_calls user session_id (lit "short") self)
      as (extra & Hx & Hlen).
    destruct (ask user session_id (lit "short") self)
      as [[response|e] self'] eqn:Ea; cbn [snd] in Hx.
    + specialize (IH self').
      destruct (chat_loop inputs session_id self') as [[out e] self''].
      cbn [snd length] in *. rewrite Hx, length_app in IH. lia.
    + destruct (is_keyboard_interrupt e); cbn [snd length];
        rewrite Hx, length_app; lia.
Qed.

Lemma chat_loop_frame inputs session_id other : forall self,
  session_id <> other ->
  _message_store (snd (chat_loop inputs session_id self)) !! other
  = _message_store self !! other.
Proof.
  induction inputs as [|user inputs IH]; intros self Hne; [reflexivity|].
  cbn [chat_loop]. destruct (strip user) as [|c u]; [apply IH, Hne|].
  pose proof (ask_frame user session_id (lit "short") self other Hne) as Hf.
  destruct (ask user session_id (lit "short") self) as [[response|e] self'];
    cbn [snd] in Hf.
  - specialize (IH self' Hne).
    destruct (chat_loop inputs session_id self') as [[out e] self''].
    cbn [snd] in *. rewrite IH. exact Hf.
  - destruct (is_keyboard_interrupt e); exact Hf.
Qed.

Lemma chat_loop_notes inputs session_id : forall self,
  match chat_loop inputs session_id self with
  | (out, None, _) => last out = Some goodbye
  | (out, Some _, _) => goodbye ∉ out
  end.
Proof.
  induction inputs as [|user inputs IH]; intros self; [reflexivity|].
  cbn [chat_loop]. destruct (strip user) as [|c u]; [apply IH|].
  destruct (ask user session_id (lit "short") self) as [[response|e] self'].
  - specialize (IH self').
    destruct (chat_loop inputs session_id self') as [[out [e|]] self''].
    + intros Hin. apply elem_of_cons in Hin as [Hin|Hin];
        [discriminate | exact (IH Hin)].
    + destruct out as [|o out]; [discriminate|]. exact IH.
  - destruct (is_keyboard_interrupt e); [reflexivity|].
    apply not_elem_of_nil.
Qed.

End WithBackend.

End FrontFacts.

Section FrontExtras.
Import Assistant AskFacts AskExtraFacts Config Console Server Requests
       FrontFacts.
Context {B : Backend}.
Variable str_exc : exn -> pystr.
Implicit Types (self : StudyAssistant B).

(** X14. [POST /chat] answers a request as it answers the request with the
    session id and style made explicit: a null or empty session id is
    ["default"], a null or empty style or one outside ["short"] and
    ["detailed"] is ["short"]. Only the debug line shows the style as it
    was sent. *)
Theorem chat_effective_request (req : ChatRequest) self :
  fst (fst (chat str_exc req self))
  = fst (fst (chat str_exc (effective req) self))
  /\ snd (chat str_exc req self) = snd (chat str_exc (effective req) self)
  /\ (style (effective req) = Some (lit "short")
      \/ style (effective req) = Some (lit "detailed"))
  /\ session_id (effective req) <> Some [].
Proof.
  assert (Hask :
    ask (message (effective req))
      (or_else (session_id (effective req)) (lit "default"))
      (or_else (style (effective req)) (lit "short")) self
    = ask (message req) (or_else (session_id req) (lit "default"))
        (or_else (style req) (lit "short")) self).
  { unfold effective. cbn [message session_id style].
    rewrite or_else_some by discriminate.
    rewrite or_else_normalized. apply ask_normalize. }
  unfold chat. rewrite Hask. clear Hask.
  destruct (ask _ _ _ self) as [[result|exc] self'].
  - split; [reflexivity|]. split; [reflexivity|]. split.
    + unfold effective. cbn [style].
      destruct (normalize_style_cases (or_else (style req) (lit "short")))
        as [-> | ->]; [left | right]; reflexivity.
    + unfold effective. cbn [session_id]. unfold or_else.
      destruct (session_id req) as [[|c x]|]; discriminate.
  - split; [reflexivity|]. split; [reflexivity|]. split.
    + unfold effective. cbn [style].
      destruct (normalize_style_cases (or_else (style req) (lit "short")))
        as [-> | ->]; [left | right]; reflexivity.
    + unfold effective. cbn [session_id]. unfold or_else.
      destruct (session_id req) as [[|c x]|]; discriminate.
Qed.

(** X15. [POST /chat] follows [ask], called with the effective session id
    and style. When [ask] returns a response the endpoint responds with
    its four fields; the answer has no white space at either end and is
    the sanitized form of the answer of the completion, which is what the
    session's messages gained after the user message. When [ask] raises
    [BadRequestError], [ValueError], [KeyError] or any other class that
    derives from [Exception], the endpoint raises [HTTPException] with
    status 500 and the text of that exception as detail; an exception of
    class [KeyboardInterrupt], [SystemExit], [GeneratorExit] or
    [CancelledError] is not caught and leaves the endpoint as it is.
    Whenever [ask] raises, the note store is as it was. The debug line is
    printed in every case. *)
Theorem chat_outcome (req : ChatRequest) self :
  let sid := or_else (session_id req) (lit "default") in
  let sty := or_else (style req) (lit "short") in
  match ask (message req) sid sty self with
  | (Ok result, self') =>
      chat str_exc req self
      = (Respond {| Server.answer := Assistant.answer result;
                    Server.key_points := Assistant.key_points result;
                    Server.suggested_questions :=
                      Assistant.suggested_questions result;
                    Server.references := Assistant.references result |},
         debug_line req, self')
      /\ StripFacts.stripped (Assistant.answer result) = true
      /\ exists docs resp,
           retriever_invoke (_vectorstore self) (message req) 4 = Ok docs
           /\ completed self (message req) sid sty docs = Ok resp
           /\ Assistant.answer result
              = _sanitize_answer (Assistant.answer resp)
           /\ history self' sid
              = history self sid
                ++ [HumanMessage (message req);
                    AIMessage (Assistant.answer resp)]
  | (Raise exc, self') =>
      _vectorstore self' = _vectorstore self
      /\ chat str_exc req self
         = (match exc with
            | BadRequestError | ValueError | KeyError =>
                HTTPException 500 (str_exc exc)
            | OtherError cls =>
                if bool_decide
                     (cls ∈ [lit "KeyboardInterrupt"; lit "SystemExit";
                             lit "GeneratorExit"; lit "CancelledError"])
                then Uncaught exc
                else HTTPException 500 (str_exc exc)
            end, debug_line req, self')
  end.
Proof.
  cbn zeta. unfold chat.
  destruct (ask _ _ _ self) as [[result|exc] self'] eqn:E.
  - split; [reflexivity|].
    destruct (ask_ok_completed _ _ _ _ _ _ E)
      as (docs & resp & Hd & Hc & -> & Hh & _).
    cbn [Assistant.answer set_answer]. split.
    + apply PatternFacts.sanitize_stripped.
    + exists docs, resp. split; [exact Hd|]. split; [exact Hc|].
      split; [reflexivity | exact Hh].
  - split; [exact (proj1 (ask_raise _ _ _ _ _ _ E))|].
    destruct exc as [| | |cls]; try reflexivity.
    unfold is_Exception, base_only.
    destruct (bool_decide _); reflexivity.
Qed.

(** X16. [DELETE /session/{session_id}] always answers [ok: true], for a
    session that exists and for one that does not; afterwards the session
    has no log and the notes are as they were. *)
Theorem reset_endpoint_ok (sid : pystr) self :
  fst (Server.reset_session str_exc sid self) = Respond true
  /\ _message_store (snd (Server.reset_session str_exc sid self)) !! sid = None
  /\ _vectorstore (snd (Server.reset_session str_exc sid self))
     = _vectorstore self.
Proof.
  unfold Server.reset_session, Assistant.reset_session.
  cbn [fst snd].
  destruct (bool_decide _) eqn:E; cbn [_message_store _vectorstore
    set_message_store].
  - split; [reflexivity|]. split; [apply lookup_delete_eq | reflexivity].
  - apply bool_decide_eq_false in E. split; [reflexivity|].
    split; [|reflexivity].
    destruct (_message_store self !! sid) eqn:Eh; [|reflexivity].
    destruct E. eexists. reflexivity.
Qed.

(** X17. The console loop skips lines that are empty or white space only:
    it prints, raises and leaves behind exactly what it would with those
    lines never typed. *)
Theorem interactive_chat_skips_blank (inputs : list pystr) (sid : pystr) self :
  interactive_chat inputs sid self
  = interactive_chat (List.filter nonblank inputs) sid self.
Proof. unfold interactive_chat. rewrite chat_loop_filter. reflexivity. Qed.

(** X18. The console loop invokes the structured chat model at most twice
    for each line that is not blank, and not at all for the others. These
    are invocations of the runnable: the client below may send the request
    of one invocation more than once. *)
Theorem interactive_chat_invocations (inputs : list pystr) (sid : pystr) self :
  length (llm_calls (snd (interactive_chat inputs sid self)))
  <= length (llm_calls self) + 2 * length (List.filter nonblank inputs).
Proof.
  unfold interactive_chat.
  pose proof (chat_loop_calls inputs sid self) as H.
  destruct (chat_loop inputs sid self) as [[out e] self']. exact H.
Qed.

(** X19. The console loop talks under its one session id: the messages of
    every other session are the same after the loop. *)
Theorem interactive_chat_frame (inputs : list pystr) (sid other : pystr) self :
  sid <> other ->
  _message_store (snd (interactive_chat inputs sid self)) !! other
  = _message_store self !! other.
Proof.
  intros Hne. unfold interactive_chat.
  pose proof (chat_loop_frame inputs sid other self Hne) as H.
  destruct (chat_loop inputs sid self) as [[out e] self']. exact H.
Qed.

(** X20. The console loop prints the banner first. It ends with the
    goodbye line exactly when no exception leaves it; an exception of [ask]
    other than [KeyboardInterrupt] leaves it with no goodbye printed. *)
Theorem interactive_chat_output (inputs : list pystr) (sid : pystr) self :
  match interactive_chat inputs sid self with
  | (out, e, _) =>
      hd_error out = Some banner
      /\ (e = None <-> last out = Some goodbye)
      /\ (e <> None -> goodbye ∉ out)
  end.
Proof.
  unfold interactive_chat.
  pose proof (chat_loop_notes inputs sid self) as H.
  destruct (chat_loop inputs sid self) as [[out [e|]] self'].
  - split; [reflexivity|].
    assert (Hn : goodbye ∉ banner :: out).
    { intros Hin. apply elem_of_cons in Hin as [Hin|Hin];
        [discriminate | exact (H Hin)]. }
    split; [|intros _; exact Hn].
    split; [discriminate|]. intros Hl. exfalso. apply Hn.
    destruct (banner :: out) as [|x l] eqn:El using rev_ind; [discriminate|].
    rewrite last_snoc in Hl. injection Hl as ->.
    apply elem_of_app. right. apply list_elem_of_singleton. reflexivity.
  - split; [reflexivity|]. split; [|congruence].
    split; [|reflexivity]. intros _.
    destruct out as [|o out]; [discriminate | exact H].
Qed.

(** X21. [build_assistant] raises [RuntimeError] when GROQ_API_KEY is
    unset or empty, whatever the constructors would do. With a key it is
    the constructor: it builds an assistant exactly when the chat model,
    the embeddings and the store can be built, and otherwise raises the
    exception of the constructor that failed. A built assistant has no
    session, so every session starts with no messages, and holds the
    notes found in the store. *)
Theorem build_assistant_spec (environ : gmap pystr pystr)
    (capabilities : result VectorStore) :
  ((exists a, build_assistant environ capabilities = Ok a)
   <-> (exists key, environ !! lit "GROQ_API_KEY" = Some key /\ key <> [])
       /\ exists vs, capabilities = Ok vs)
  /\ match build_assistant environ capabilities with
     | Ok a =>
         capabilities = Ok (_vectorstore a) /\ llm_calls a = []
         /\ forall sid, _message_store a !! sid = None
     | Raise e =>
         match environ !! lit "GROQ_API_KEY" with
         | None | Some [] => e = OtherError (lit "RuntimeError")
         | Some (_ :: _) => capabilities = Raise e
         end
     end.
Proof.
  unfold build_assistant, new_assistant, get_settings. cbn [groq_api_key].
  destruct (environ !! lit "GROQ_API_KEY") as [[|c key]|]; cbn [truthy].
  - split; [|reflexivity]. split.
    + intros [a Ha]. discriminate.
    + intros [(key & [= <-] & Hk) _]. congruence.
  - destruct capabilities as [vs|e].
    + split.
      * split; [|intros _; eexists; reflexivity].
        intros _. split; [|exists vs; reflexivity].
        exists (c :: key). split; [reflexivity | discriminate].
      * split; [reflexivity|]. split; [reflexivity|].
        intros sid. apply lookup_empty.
    + split; [|reflexivity]. split.
      * intros [a Ha]. discriminate.
      * intros [_ (vs & Hvs)]. discriminate.
  - split; [|reflexivity]. split.
    + intros [a Ha]. discriminate.
    + intros [(key & Hk & _) _]. discriminate.
Qed.

End FrontExtras.

(** ** The further properties on concrete backends *)

Section ExtraScenarios.
Import Assistant AskFacts Config Console Requests Scenario Scenario2.

Lemma ask_retrieval_failure_witness :
  ask (B:=offline) question s1 (lit "short") (fresh offline (empty_store true))
  = (Raise (OtherError (lit "StorageError")),
     fresh offline (empty_store true)).
Proof.
  apply (ask_retrieval_failure (B:=offline) question s1 (lit "short")
           (fresh offline (empty_store true))).
  reflexivity.
Defined.

Lemma ask_invocations_witness :
  let self := fresh leaky (empty_store true) in
  let prompt := ask_prompt self question s1 (lit "short") (notes_text []) in
  let calls := llm_calls (snd (ask (B:=leaky) question s1 (lit "short") self)) in
  calls = llm_calls self ++ [(json_mode, prompt)]
  \/ calls = llm_calls self ++ [(json_mode, prompt); (json_schema, prompt)].
Proof.
  cbn zeta.
  apply (ask_invocations (B:=leaky) question s1 (lit "short")
           (fresh leaky (empty_store true)) []).
  reflexivity.
Defined.

Lemma ask_keeps_messages_witness :
  is_Some
    (_message_store
       (snd (ask (B:=unreachable) question s1 (lit "short")
               (two_sessions unreachable (empty_store true)))) !! s2).
Proof.
  apply (proj2 (ask_keeps_messages (B:=unreachable) question s1 (lit "short")
                  (two_sessions unreachable (empty_store true)) s2)).
  vm_compute. eexists. reflexivity.
Defined.

Lemma ask_opens_session_witness :
  exists h,
    _message_store
      (snd (ask (B:=unreachable) question s1 (lit "short")
              (fresh unreachable (empty_store true)))) !! s1 = Some h
    /\ history (fresh unreachable (empty_store true)) s1 `prefix_of` h.
Proof.
  apply (ask_opens_session (B:=unreachable) question s1 (lit "short")
           (fresh unreachable (empty_store true)) []).
  reflexivity.
Defined.

Lemma ask_follow_up_witness :
  let self := fresh leaky (empty_store true) in
  let self1 := snd (ask (B:=leaky) question s1 (lit "short") self) in
  let docs2 := take 4 (stored (_vectorstore self1)) in
  exists docs1 resp1,
    retriever_invoke (Backend:=leaky) (_vectorstore self) question 4 = Ok docs1
    /\ completed self question s1 (lit "short") docs1 = Ok resp1
    /\ answer final_answer = _sanitize_answer (answer resp1)
    /\ llm_calls
         (snd (ask (B:=leaky) (lit "Can you elaborate?") s1 (lit "detailed")
                 self1))
         !! length (llm_calls self1)
       = Some (json_mode,
               SystemMessage
                 (system_text (normalize_style (lit "detailed"))
                    (notes_text docs2))
               :: (history self s1
                   ++ [HumanMessage question; AIMessage (answer resp1)])
               ++ [HumanMessage (human_text (lit "Can you elaborate?"))]).
Proof.
  cbn zeta.
  apply (ask_follow_up (B:=leaky) question (lit "short")
           (lit "Can you elaborate?") (lit "detailed") s1
           (fresh leaky (empty_store true)) final_answer
           (snd (ask (B:=leaky) question s1 (lit "short")
                   (fresh leaky (empty_store true))))).
  - vm_compute. reflexivity.
  - reflexivity.
Defined.

Lemma reset_then_ask_witness :
  let self := two_sessions leaky one_note in
  llm_calls (snd (ask (B:=leaky) question s1 (lit "short")
                    (snd (Assistant.reset_session s1 self))))
    !! length (llm_calls self)
  = Some (json_mode,
          [SystemMessage
             (system_text (normalize_style (lit "short"))
                (notes_text (stored one_note)));
           HumanMessage (human_text question)]).
Proof.
  cbn zeta.
  apply (reset_then_ask (B:=leaky) question s1 (lit "short")
           (two_sessions leaky one_note) (stored one_note)).
  reflexivity.
Defined.

Lemma get_or_create_history_spec_witness :
  snd (_get_or_create_history s1 (two_sessions leaky (empty_store true)))
  = two_sessions leaky (empty_store true).
Proof.
  destruct (get_or_create_history_spec (B:=leaky) s1
              (two_sessions leaky (empty_store true)))
    as (_ & _ & _ & _ & H & _).
  apply H. vm_compute. eexists. reflexivity.
Defined.

Lemma retrieve_notes_spec_witness :
  stored one_note <> []
  /\ lit "[Note 1]" `prefix_of` notes_text (stored one_note).
Proof.
  pose proof (retrieve_notes_spec (B:=leaky) question (fresh leaky one_note))
    as [_ H].
  change (retriever_invoke (_vectorstore (fresh leaky one_note)) question 4)
    with (@Ok (list Document) (stored one_note)) in H.
  destruct H as (_ & _ & H & _).
  assert (Hne : stored one_note <> []) by discriminate.
  split; [exact Hne | exact (H Hne)].
Defined.

Lemma interactive_chat_frame_witness :
  _message_store
    (snd (interactive_chat (B:=leaky) [question; lit "  "] s1
            (two_sessions leaky (empty_store true)))) !! s2
  = _message_store (two_sessions leaky (empty_store true)) !! s2.
Proof.
  apply (interactive_chat_frame (B:=leaky) [question; lit "  "] s1 s2
           (two_sessions leaky (empty_store true))).
  discriminate.
Defined.

Lemma interactive_chat_output_witness :
  goodbye ∉ fst (fst (interactive_chat (B:=unreachable) [question] s1
                        (fresh unreachable (empty_store true)))).
Proof.
  pose proof (interactive_chat_output (B:=unreachable) [question] s1
                (fresh unreachable (empty_store true))) as H.
  destruct (interactive_chat (B:=unreachable) [question] s1
              (fresh unreachable (empty_store true)))
    as [[out e] self'] eqn:E.
  destruct H as (_ & _ & H). cbn [fst]. apply H.
  assert (He : snd (fst (interactive_chat (B:=unreachable) [question] s1
                           (fresh unreachable (empty_store true))))
               = Some (OtherError (lit "APIConnectionError")))
    by (vm_compute; reflexivity).
  rewrite E in He. cbn [fst snd] in He. rewrite He. discriminate.
Defined.

Lemma build_assistant_spec_witness :
  (exists a,
     build_assistant (B:=leaky) with_key (Ok (empty_store true)) = Ok a)
  /\ ~ (exists a,
          build_assistant (B:=leaky) with_key
            (Raise (OtherError (lit "GroqError"))) = Ok a)
  /\ ~ (exists a,
          build_assistant (B:=leaky) empty_key (Ok (empty_store true)) = Ok a).
Proof.
  split; [|split].
  - apply (proj1 (build_assistant_spec (B:=leaky) with_key
                    (Ok (empty_store true)))).
    split; [|eexists; reflexivity].
    exists (lit "gsk_test"). split; [vm_compute; reflexivity | discriminate].
  - intros H.
    apply (proj1 (build_assistant_spec (B:=leaky) with_key
                    (Raise (OtherError (lit "GroqError"))))) in H.
    destruct H as [_ (vs & Hvs)]. discriminate.
  - intros H.
    apply (proj1 (build_assistant_spec (B:=leaky) empty_key
                    (Ok (empty_store true)))) in H.
    destruct H as [(key & Hk & Hne) _].
    vm_compute in Hk. congruence.
Defined.

End ExtraScenarios.
